(** * ExchangeRate: the command handlers of exchangeAppGUI.py

    A shallow embedding of the Tk front end of the exchangerate-api client.
    The three button handlers ([convert_currency], [get_exchange_rate],
    [get_api_quota]), the credential check ([check_admin]) and the constructor
    of the rate-table dialog ([ExchangeRatesDialog]) are written as programs of
    a state-and-exception monad over the widgets they touch.  The remote API
    is an oracle from URLs to responses.

    Text is modelled by [string].  [upper], [strip] and [repr_str] follow
    Python on ASCII text, characters below 128, and carry every other
    character through unchanged, where Python has case mappings, white space
    and escapes of its own: what is stated about upper-cased text is stated
    for fields that are ASCII ([is_ascii]), and what is stated about the rate
    table for maps of plain codes ([rate_map]).  A Python float is
    represented by its [repr] text (Python's shortest round-trip decimal):
    the program never computes with a rate, it only prints it. *)

From Stdlib Require Import String Ascii List ZArith Bool Lia DecimalString.
Import ListNotations.
Local Open Scope string_scope.
Set Warnings "-register-all".

(** ** Python values and the builtins the program calls *)

Module Py.

Inductive value : Type :=
| PyNone
| PyBool (b : bool)
| PyInt (z : Z)
| PyFloat (text : string)
| PyStr (s : string)
| PyList (l : list value)
| PyDict (d : list (string * value)).

Inductive exn : Type :=
| RequestException          (* requests.get failed: no response at all *)
| JSONDecodeError           (* Response.json() on a body that is not JSON *)
| KeyError (k : option string)   (* d[k] on a dict without k *)
| TypeError.                (* v[k] on a value that is not a dict *)

Definition squote : ascii := "'"%char.
Definition dquote : ascii := ascii_of_nat 34.
Definition backslash : ascii := ascii_of_nat 92.
Definition LF : string := String (ascii_of_nat 10) "".

Fixpoint contains (c : ascii) (s : string) : bool :=
  match s with
  | "" => false
  | String d r => Ascii.eqb c d || contains c r
  end.

(** [str.upper] on ASCII text: a to z go to A to Z, every other character
    stays.  Python also maps letters outside ASCII, some to more than one
    character; the statements below that spell out upper-cased text are
    therefore made for fields that satisfy [is_ascii]. *)
Definition upper_char (c : ascii) : ascii :=
  let n := nat_of_ascii c in
  if (97 <=? n)%nat && (n <=? 122)%nat then ascii_of_nat (n - 32) else c.

Fixpoint upper (s : string) : string :=
  match s with
  | "" => ""
  | String c r => String (upper_char c) (upper r)
  end.

(** [str.isspace] on ASCII: TAB, LF, VT, FF, CR, FS, GS, RS, US and space. *)
Definition is_space (c : ascii) : bool :=
  let n := nat_of_ascii c in
  ((9 <=? n)%nat && (n <=? 13)%nat) || ((28 <=? n)%nat && (n <=? 32)%nat).

Fixpoint lstrip (s : string) : string :=
  match s with
  | "" => ""
  | String c r => if is_space c then lstrip r else s
  end.

Fixpoint rstrip (s : string) : string :=
  match s with
  | "" => ""
  | String c r =>
      match rstrip r with
      | "" => if is_space c then "" else String c ""
      | r' => String c r'
      end
  end.

(** [str.strip()] with no argument. *)
Definition strip (s : string) : string := rstrip (lstrip s).

(** [re.sub(pattern, repl, s)] for a pattern that matches exactly one
    character out of a set: [[{}']] and [,] in the source. *)
Fixpoint re_sub_class (cls repl s : string) : string :=
  match s with
  | "" => ""
  | String c r =>
      (if contains c cls then repl else String c "") ++ re_sub_class cls repl r
  end.

(** [str(int)]. *)
Definition int_repr (z : Z) : string := NilZero.string_of_int (Z.to_int z).

Definition hex_digit (n : nat) : ascii :=
  nth n (list_ascii_of_string "0123456789abcdef") "0"%char.

(** One character of [repr(str)], [quote] being the delimiter chosen. *)
Definition repr_char (quote c : ascii) : string :=
  let n := nat_of_ascii c in
  if Ascii.eqb c quote || Ascii.eqb c backslash then String backslash (String c "")
  else if (n =? 9)%nat then String backslash "t"
  else if (n =? 10)%nat then String backslash "n"
  else if (n =? 13)%nat then String backslash "r"
  else if (n <? 32)%nat || (n =? 127)%nat then
    String backslash (String "x" (String (hex_digit (n / 16)) (String (hex_digit (n mod 16)) "")))
  else String c "".

Fixpoint repr_body (quote : ascii) (s : string) : string :=
  match s with
  | "" => ""
  | String c r => repr_char quote c ++ repr_body quote r
  end.

(** [repr(str)]: single quotes, unless the text has a single quote and no
    double quote. *)
Definition repr_str (s : string) : string :=
  let quote := if contains squote s && negb (contains dquote s) then dquote else squote in
  String quote (repr_body quote s ++ String quote "").

(** [repr(v)]; a dict prints its items in insertion order. *)
Fixpoint repr (v : value) : string :=
  match v with
  | PyNone => "None"
  | PyBool b => if b then "True" else "False"
  | PyInt z => int_repr z
  | PyFloat text => text
  | PyStr s => repr_str s
  | PyList l => "[" ++ String.concat ", " (map repr l) ++ "]"
  | PyDict d =>
      "{" ++ String.concat ", "
               (map (fun kv => repr_str (fst kv) ++ ": " ++ repr (snd kv)) d) ++ "}"
  end.

(** [str(v)], which is also what an f-string field [{v}] inserts. *)
Definition str (v : value) : string :=
  match v with
  | PyStr s => s
  | _ => repr v
  end.

(** Truth value of an object, as tested by [if] and [not]. *)
Definition truthy (v : value) : bool :=
  match v with
  | PyNone => false
  | PyBool b => b
  | PyInt z => negb (z =? 0)%Z
  | PyFloat text => negb (String.eqb text "0.0" || String.eqb text "-0.0")
  | PyStr s => negb (String.eqb s "")
  | PyList l => match l with [] => false | _ => true end
  | PyDict d => match d with [] => false | _ => true end
  end.

Fixpoint dict_get (d : list (string * value)) (k : string) : option value :=
  match d with
  | [] => None
  | (k', x) :: r => if String.eqb k k' then Some x else dict_get r k
  end.

(** A name bound to [str | None]: what [os.getenv] returns, and what
    [x.upper() if x else None] evaluates to. *)
Definition optstr : Type := option string.

Definition truthy_str (s : string) : bool := negb (String.eqb s "").

Definition truthy_opt (c : optstr) : bool :=
  match c with
  | Some s => truthy_str s
  | None => false
  end.

(** What an f-string field [{c}] inserts. *)
Definition fmt (c : optstr) : string :=
  match c with
  | Some s => s
  | None => "None"
  end.

(** [s == c] for a string [s]. *)
Definition str_eq (s : string) (c : optstr) : bool :=
  match c with
  | Some t => String.eqb s t
  | None => false
  end.

(** [v[k]] for a subscript [k] that is a string or [None]. *)
Definition getitem (v : value) (k : optstr) : value + exn :=
  match v with
  | PyDict d =>
      match k with
      | Some s =>
          match dict_get d s with
          | Some x => inl x
          | None => inr (KeyError k)
          end
      | None => inr (KeyError k)
      end
  | _ => inr TypeError
  end.

End Py.
Import Py.

(** ** The process: configuration, network and widgets *)

(** What [requests.get] comes back with: nothing (it raises), or a response
    with its status code and its body, [None] when the body is not JSON. *)
Inductive reply : Type :=
| NoReply
| Reply (status : Z) (body : option value).

(** The three globals read from the environment at import time (lines
    18-22) and the remote API. *)
Record env : Type := {
  API_KEY : optstr;
  ADMIN : optstr;
  PASSWORD : optstr;
  api : string -> reply
}.

Inductive entry : Type :=
| source_currency_entry | target_currency_entry | amount_entry
| admin_entry | admin_password_entry
| from_currency_entry | to_currency_entry.

Inductive label : Type :=
| display_result | quota_label | exchange_rate_label.

Definition entry_eqb (a b : entry) : bool :=
  match a, b with
  | source_currency_entry, source_currency_entry
  | target_currency_entry, target_currency_entry
  | amount_entry, amount_entry
  | admin_entry, admin_entry
  | admin_password_entry, admin_password_entry
  | from_currency_entry, from_currency_entry
  | to_currency_entry, to_currency_entry => true
  | _, _ => false
  end.

Definition label_eqb (a b : label) : bool :=
  match a, b with
  | display_result, display_result
  | quota_label, quota_label
  | exchange_rate_label, exchange_rate_label => true
  | _, _ => false
  end.

(** The ScrolledText of a rate-table window: its text, and whether it was
    set read-only. *)
Record scrolled_text : Type := {
  content : string;
  disabled : bool
}.

(** An [ExchangeRatesDialog] window: its ScrolledText, [None] as long as
    line 83 has not created it, and whether the window holds the grab. *)
Record dialog : Type := {
  stext : option scrolled_text;
  grabbed : bool
}.

(** Everything a handler can read or change.  [timers] are the pending
    [after] callbacks (each one blanks a label), [sent] the URLs requested so
    far, oldest first, and [dialogs] the rate-table windows, newest first. *)
Record world : Type := {
  entries : entry -> string;
  labels : label -> string;
  timers : list (Z * label);
  sent : list string;
  dialogs : list dialog
}.

(** The window as lines 209-313 build it. *)
Definition startup : world := {|
  entries := fun _ => "";
  labels := fun l =>
    match l with
    | display_result => ""
    | quota_label => "Quota:"
    | exchange_rate_label => "Exchange rate:"
    end;
  timers := [];
  sent := [];
  dialogs := []
|}.

(** ** Handlers run in a state monad with exceptions *)

Inductive result (A : Type) : Type :=
| Ok (a : A)
| Raise (e : exn).
Arguments Ok {A} a.
Arguments Raise {A} e.

Definition M (A : Type) : Type := world -> result A * world.

Definition ret {A} (a : A) : M A := fun w => (Ok a, w).

Definition raise {A} (e : exn) : M A := fun w => (Raise e, w).

Definition bind {A B} (c : M A) (k : A -> M B) : M B :=
  fun w =>
    match c w with
    | (Ok a, w') => k a w'
    | (Raise e, w') => (Raise e, w')
    end.

Declare Scope py_scope.
Delimit Scope py_scope with py.
Notation "x <- c ;; k" := (bind c (fun x => k))
  (at level 61, c at next level, right associativity) : py_scope.
Notation "c ;; k" := (bind c (fun _ => k))
  (at level 61, right associativity) : py_scope.
Local Open Scope py_scope.

Definition lift {A} (r : A + exn) : M A :=
  match r with
  | inl a => ret a
  | inr e => raise e
  end.

(** [e.get()] *)
Definition entry_get (e : entry) : M string :=
  fun w => (Ok (entries w e), w).

(** [e.delete(0, END)] *)
Definition entry_delete (e : entry) : M unit :=
  fun w =>
    (Ok tt,
     {| entries := fun e' => if entry_eqb e' e then "" else entries w e';
        labels := labels w; timers := timers w; sent := sent w;
        dialogs := dialogs w |}).

(** [l.config(text=t)] *)
Definition label_config (l : label) (t : string) : M unit :=
  fun w =>
    (Ok tt,
     {| entries := entries w;
        labels := fun l' => if label_eqb l' l then t else labels w l';
        timers := timers w; sent := sent w; dialogs := dialogs w |}).

(** [l.after(ms, lambda: l.config(text=""))] *)
Definition label_after (ms : Z) (l : label) : M unit :=
  fun w =>
    (Ok tt,
     {| entries := entries w; labels := labels w;
        timers := timers w ++ [(ms, l)]; sent := sent w;
        dialogs := dialogs w |}).

(** A pending callback running: the label goes blank. *)
Definition fire (l : label) : M unit := label_config l "".

(** [Toplevel.__init__]: a new window with nothing in it, no text widget
    either (its title, size and icon are left out). *)
Definition toplevel_init : M unit :=
  fun w =>
    (Ok tt,
     {| entries := entries w; labels := labels w; timers := timers w;
        sent := sent w;
        dialogs := {| stext := None; grabbed := false |} :: dialogs w |}).

Definition on_dialog (f : dialog -> dialog) : M unit :=
  fun w =>
    (Ok tt,
     {| entries := entries w; labels := labels w; timers := timers w;
        sent := sent w;
        dialogs := match dialogs w with
                   | [] => []
                   | d :: r => f d :: r
                   end |}).

(** [stext = ScrolledText(self, ...)] and [stext.pack(...)]: the window
    gets its text widget, empty and editable. *)
Definition stext_create : M unit :=
  on_dialog (fun d => {| stext := Some {| content := ""; disabled := false |};
                         grabbed := grabbed d |}).

(** [stext.insert("1.0", t)] *)
Definition stext_insert (t : string) : M unit :=
  on_dialog (fun d =>
    {| stext := option_map
                  (fun s => {| content := t ++ content s;
                               disabled := disabled s |}) (stext d);
       grabbed := grabbed d |}).

(** [stext.config(state="disabled")] *)
Definition stext_disable : M unit :=
  on_dialog (fun d =>
    {| stext := option_map
                  (fun s => {| content := content s; disabled := true |})
                  (stext d);
       grabbed := grabbed d |}).

(** [dialog.grab_set()] *)
Definition grab_set : M unit :=
  on_dialog (fun d => {| stext := stext d; grabbed := true |}).

Record response : Type := {
  status_code : Z;
  body : option value
}.

(** [Response.json()] *)
Definition json (r : response) : M value :=
  match body r with
  | Some v => ret v
  | None => raise JSONDecodeError
  end.

Definition subscript (v : value) (k : optstr) : M value := lift (getitem v k).

(** Lines 78-80 and 86: the rate table as the dialog shows it. *)
Definition format_rates (conversion_rates : value) : string :=
  let text_rates := str conversion_rates in
  let text_rates := re_sub_class "{}'" "" text_rates in
  let text_rates := re_sub_class "," LF text_rates in
  strip text_rates.

Section Handlers.

Variable E : env.

Definition api_root : string :=
  "https://v6.exchangerate-api.com/v6/" ++ fmt (API_KEY E).

Definition url_latest (base : optstr) : string :=
  api_root ++ "/latest/" ++ fmt base.

Definition url_pair (from_currency to_currency amount : string) : string :=
  api_root ++ "/pair/" ++ from_currency ++ "/" ++ to_currency ++ "/" ++ amount.

Definition url_quota : string := api_root ++ "/quota".

(** [requests.get(url)]: the request goes out, then either a response comes
    back or the call raises.  The status code is carried by the response and
    nothing in the program reads it. *)
Definition requests_get (url : string) : M response :=
  fun w =>
    let w' := {| entries := entries w; labels := labels w; timers := timers w;
                 sent := sent w ++ [url]; dialogs := dialogs w |} in
    match api E url with
    | NoReply => (Raise RequestException, w')
    | Reply st b => (Ok {| status_code := st; body := b |}, w')
    end.

(** Lines 63-87. *)
Definition ExchangeRatesDialog (from_currency : optstr) : M unit :=
  toplevel_init ;;
  exchange_rate <- requests_get (url_latest from_currency) ;;
  exchange_rate <- json exchange_rate ;;
  conversion_rates <- subscript exchange_rate (Some "conversion_rates") ;;
  stext_create ;;
  stext_insert (format_rates conversion_rates) ;;
  stext_disable.

(** Lines 195-206: [True] on a match, and otherwise the function falls off
    its end, which returns [None]. *)
Definition check_admin : M value :=
  admin_username <- entry_get admin_entry ;;
  admin_password <- entry_get admin_password_entry ;;
  if str_eq admin_username (ADMIN E) && str_eq admin_password (PASSWORD E)
  then ret (PyBool true)
  else ret PyNone.

(** Lines 91-113. *)
Definition get_api_quota : M unit :=
  ok <- check_admin ;;
  if negb (truthy ok) then
    label_config quota_label "Invalid admin credentials!" ;;
    label_after 3000 quota_label ;;
    ret tt
  else
    quota <- requests_get url_quota ;;
    quota <- json quota ;;
    remaining <- subscript quota (Some "requests_remaining") ;;
    label_config quota_label ("Quota: " ++ str remaining ++ " requests remaining") ;;
    entry_delete admin_entry ;;
    entry_delete admin_password_entry ;;
    label_after 3000 quota_label.

(** Lines 117-157. *)
Definition get_exchange_rate : M unit :=
  a <- entry_get from_currency_entry ;;
  let from_currency := if truthy_str a then Some (upper a) else None in
  b <- entry_get to_currency_entry ;;
  let to_currency := if truthy_str b then Some (upper b) else None in
  if negb (truthy_opt from_currency) then
    label_config exchange_rate_label "Please enter the source currency!" ;;
    label_after 3000 exchange_rate_label ;;
    ret tt
  else if truthy_opt to_currency then
    response <- requests_get (url_latest from_currency) ;;
    response_json <- json response ;;
    conversion_rates <- subscript response_json (Some "conversion_rates") ;;
    exchange_rate <- subscript conversion_rates to_currency ;;
    label_config exchange_rate_label
      ("Exchange rate for " ++ fmt from_currency ++ " to " ++ fmt to_currency
         ++ ": " ++ str exchange_rate) ;;
    label_after 10000 exchange_rate_label ;;
    entry_delete from_currency_entry ;;
    entry_delete to_currency_entry
  else
    ExchangeRatesDialog from_currency ;;
    grab_set.

(** Lines 161-191. *)
Definition convert_currency : M unit :=
  a <- entry_get source_currency_entry ;;
  let from_currency := upper a in
  b <- entry_get target_currency_entry ;;
  let to_currency := upper b in
  amount <- entry_get amount_entry ;;
  conversion <- requests_get (url_pair from_currency to_currency amount) ;;
  conversion <- json conversion ;;
  conversion_result <- subscript conversion (Some "conversion_result") ;;
  label_config display_result
    (from_currency ++ " to " ++ to_currency ++ ": " ++ str conversion_result) ;;
  label_after 10000 display_result ;;
  entry_delete source_currency_entry ;;
  entry_delete target_currency_entry ;;
  entry_delete amount_entry.

End Handlers.

(** ** What a request yields *)

(** Subscripting along a path of keys. *)
Fixpoint walk (v : value) (path : list optstr) : value + exn :=
  match path with
  | [] => inl v
  | k :: rest =>
      match getitem v k with
      | inl x => walk x rest
      | inr e => inr e
      end
  end.

(** The value a handler ends up with from a reply, or the exception on the
    way: no reply, a body that is not JSON, or a key that is not there.  The
    status code plays no part. *)
Definition extract (r : reply) (path : list optstr) : value + exn :=
  match r with
  | NoReply => inr RequestException
  | Reply _ None => inr JSONDecodeError
  | Reply _ (Some j) => walk j path
  end.

(** ** Single-character deviation of a submitted credential *)

(** [deviates s t]: [t] is [s] with one character replaced, inserted or
    removed. *)
Inductive deviates : string -> string -> Prop :=
| dev_replace c d s : c <> d -> deviates (String c s) (String d s)
| dev_insert c s : deviates s (String c s)
| dev_remove c s : deviates (String c s) s
| dev_later c s t : deviates s t -> deviates (String c s) (String c t).

(** ** The rate table, entry by entry *)

(** The two substitutions of lines 79 and 80. *)
Definition tidy (s : string) : string :=
  re_sub_class "," LF (re_sub_class "{}'" "" s).

Fixpoint all_chars (P : ascii -> bool) (s : string) : bool :=
  match s with
  | "" => true
  | String c r => P c && all_chars P r
  end.

(** Text within the reach of [upper]: every character is below 128. *)
Definition is_ascii (s : string) : bool :=
  all_chars (fun c => (nat_of_ascii c <? 128)%nat) s.

Definition is_lower (c : ascii) : bool :=
  let n := nat_of_ascii c in (97 <=? n)%nat && (n <=? 122)%nat.

(** No character of the text is one of a to z. *)
Definition no_lower (s : string) : bool :=
  all_chars (fun c => negb (is_lower c)) s.

(** A character that [repr], the two substitutions and [strip] all leave
    alone: printable ASCII other than space, single quote, backslash, braces
    and comma. *)
Definition plain_char (c : ascii) : bool :=
  let n := nat_of_ascii c in
  (33 <=? n)%nat && (n <=? 126)%nat
  && negb (contains c "'{},") && negb (Ascii.eqb c backslash).

(** The characters Python prints a number with. *)
Definition number_char (c : ascii) : bool := contains c "0123456789.e+-infa".

(** A rate: an int, or a float given by its text. *)
Definition is_rate (v : value) : bool :=
  match v with
  | PyInt _ => true
  | PyFloat text => truthy_str text && all_chars number_char text
  | _ => false
  end.

(** A rate map: plain codes bound to rates. *)
Definition rate_map (d : list (string * value)) : bool :=
  forallb (fun kv => all_chars plain_char (fst kv) && is_rate (snd kv)) d.

(** The line the dialog shows for one entry of the map. *)
Definition rate_line (kv : string * value) : string :=
  fst kv ++ ": " ++ str (snd kv).

(** The line the specification describes: code, a space, the rate. *)
Definition spec_line (kv : string * value) : string :=
  fst kv ++ " " ++ str (snd kv).

(** [s.split("\n")] *)
Fixpoint split_lines (s : string) : list string :=
  match s with
  | "" => [""]
  | String c r =>
      if Ascii.eqb c (ascii_of_nat 10) then "" :: split_lines r
      else match split_lines r with
           | [] => [String c ""]
           | l :: ls => String c l :: ls
           end
  end.

(** [strip] leaves alone a text that neither starts nor ends with white
    space. *)
Definition head_ok (s : string) : bool :=
  match s with
  | "" => true
  | String c _ => negb (is_space c)
  end.

Fixpoint last_ok (s : string) : bool :=
  match s with
  | "" => true
  | String c "" => negb (is_space c)
  | String _ r => last_ok r
  end.

(** No character of the text is a line break. *)
Fixpoint one_line (s : string) : bool :=
  match s with
  | "" => true
  | String c r => negb (Ascii.eqb c (ascii_of_nat 10)) && one_line r
  end.

(** ** Proof steps shared by the handlers *)

Ltac unfold_handler :=
  unfold get_api_quota, get_exchange_rate, convert_currency,
    ExchangeRatesDialog, check_admin, requests_get, json, subscript, lift,
    toplevel_init, stext_create, stext_insert, stext_disable, grab_set,
    on_dialog,
    label_config, label_after, entry_delete, entry_get, bind, ret, raise;
  simpl.

(** The boolean [check_admin] branches on. *)
Definition credentials_match (E : env) (w : world) : bool :=
  str_eq (entries w admin_entry) (ADMIN E)
  && str_eq (entries w admin_password_entry) (PASSWORD E).

(** The two ways a run ends, as goals: the value was extracted and the
    handler returned, or an exception came up and the handler raised it. *)
Ltac no_fault :=
  split; [split; intros Habsurd; discriminate Habsurd
         | intros Habsurd; discriminate Habsurd].

Ltac fault Hrest :=
  split; [split; intros Hsame; congruence | intros _; exact Hrest].

(** ** Sample configurations *)

Module Sample.

Definition rate_list : list (string * value) :=
  [("USD", PyInt 1); ("EUR", PyFloat "0.9235"); ("JPY", PyFloat "151.62")].

Definition rates : value := PyDict rate_list.

(** An API that answers every request with one JSON object holding all
    three payloads. *)
Definition answer : value :=
  PyDict [("result", PyStr "success");
          ("conversion_result", PyFloat "92.35");
          ("requests_remaining", PyInt 1200);
          ("conversion_rates", rates)].

Definition online : env :=
  {| API_KEY := Some "k3y"; ADMIN := Some "root"; PASSWORD := Some "s3cret";
     api := fun _ => Reply 200 (Some answer) |}.

(** The network is down. *)
Definition offline : env :=
  {| API_KEY := Some "k3y"; ADMIN := Some "root"; PASSWORD := Some "s3cret";
     api := fun _ => NoReply |}.

(** The API rejects the request, the way exchangerate-api reports an
    unknown code. *)
Definition rejecting : env :=
  {| API_KEY := Some "k3y"; ADMIN := Some "root"; PASSWORD := Some "s3cret";
     api := fun _ => Reply 404 (Some (PyDict [("result", PyStr "error");
                                             ("error-type", PyStr "unsupported-code")])) |}.

(** A server that answers 404 and still sends the payload. *)
Definition odd_status : env :=
  {| API_KEY := Some "k3y"; ADMIN := Some "root"; PASSWORD := Some "s3cret";
     api := fun _ => Reply 404 (Some answer) |}.

(** The environment file was not found: all three globals are [None]. *)
Definition unconfigured : env :=
  {| API_KEY := None; ADMIN := None; PASSWORD := None;
     api := fun _ => Reply 200 (Some answer) |}.

(** Every form filled in, the admin form with the right credentials. *)
Definition filled : world :=
  {| entries := fun e =>
       match e with
       | source_currency_entry => "usd"
       | target_currency_entry => "eur"
       | amount_entry => "100"
       | admin_entry => "root"
       | admin_password_entry => "s3cret"
       | from_currency_entry => "usd"
       | to_currency_entry => "eur"
       end;
     labels := labels startup; timers := []; sent := []; dialogs := [] |}.

(** The scenario of the convert form: USD, EUR, 100. *)
Definition usd_eur_100 : world :=
  {| entries := fun e =>
       match e with
       | source_currency_entry => "USD"
       | target_currency_entry => "EUR"
       | amount_entry => "100"
       | _ => ""
       end;
     labels := labels startup; timers := []; sent := []; dialogs := [] |}.

(** The admin form with a wrong password. *)
Definition wrong_password : world :=
  {| entries := fun e =>
       match e with
       | admin_entry => "root"
       | admin_password_entry => "S3cret"
       | _ => ""
       end;
     labels := labels startup; timers := []; sent := []; dialogs := [] |}.

(** The rate form with only a target. *)
Definition target_only : world :=
  {| entries := fun e =>
       match e with
       | to_currency_entry => "eur"
       | _ => ""
       end;
     labels := labels startup; timers := []; sent := []; dialogs := [] |}.

End Sample.

(** ** The day/night toggle *)

(** What lines 333-348 work on: the [IntVar] behind the check button, the
    theme in use, and the styles configured so far, oldest first. *)
Record look : Type := {
  var : Z;
  theme : string;
  configured : list string
}.

(** The look at start-up: lines 210, 216-220 and 344. *)
Definition startup_look : look :=
  {| var := 0; theme := "simplex"; configured := ["TButton"; "TFrames"] |}.

(** Lines 333-340. *)
Definition change_theme (k : look) : look :=
  let num := var k in
  if (num mod 2 =? 0)%Z then
    {| var := var k; theme := "simplex"; configured := configured k |}
  else
    {| var := var k; theme := "superhero";
       configured := (configured k ++ ["TButton"; "TFrames"])%list |}.

(** A click on the check button of lines 345-347: the variable goes to
    [offvalue=0] if it holds [onvalue=1] and to [onvalue=1] otherwise, then
    the command runs. *)
Definition click_toggle (k : look) : look :=
  change_theme {| var := if (var k =? 1)%Z then 0%Z else 1%Z;
                  theme := theme k; configured := configured k |}.

(** ** Comparing runs *)

(** A reply with its status code blanked. *)
Definition forget_status (r : reply) : reply :=
  match r with
  | NoReply => NoReply
  | Reply _ b => Reply 0 b
  end.

(** [new] is [old], or [old] with one more element at its end. *)
Definition appended {A : Type} (old new : list A) : Prop :=
  new = old \/ exists x, new = (old ++ [x])%list.

(** The three handlers bound to buttons. *)
Inductive command : Type :=
| Convert | GetRate | CheckQuota.

Definition handler (E : env) (c : command) : M unit :=
  match c with
  | Convert => convert_currency E
  | GetRate => get_exchange_rate E
  | CheckQuota => get_api_quota E
  end.

(** The fields and the label of the form a command belongs to. *)
Definition own_entry (c : command) (e : entry) : bool :=
  match c, e with
  | Convert, (source_currency_entry | target_currency_entry | amount_entry)
  | GetRate, (from_currency_entry | to_currency_entry)
  | CheckQuota, (admin_entry | admin_password_entry) => true
  | _, _ => false
  end.

Definition own_label (c : command) (l : label) : bool :=
  match c, l with
  | Convert, display_result
  | GetRate, exchange_rate_label
  | CheckQuota, quota_label => true
  | _, _ => false
  end.

(** Case analysis on everything a run branches on. *)
Ltac run_cases :=
  repeat match goal with
    | |- context [match api ?E ?u with _ => _ end] =>
        destruct (api E u) as [| ? [? |]]; simpl
    | |- context [match getitem ?v ?k with _ => _ end] =>
        destruct (getitem v k); simpl
    | |- context [if ?b then _ else _] => destruct b eqn:?; simpl
    end.

Ltac rate_form_cases w :=
  destruct (entries w from_currency_entry) eqn:?;
  destruct (entries w to_currency_entry) eqn:?; simpl.

Ltac run_command c w :=
  destruct c; unfold handler; unfold_handler;
  try rate_form_cases w; run_cases.

(** ** More forms *)

Module Scenario.

(** The rate form with a source and no target. *)
Definition source_only : world :=
  {| entries := fun e =>
       match e with
       | from_currency_entry => "usd"
       | _ => ""
       end;
     labels := labels startup; timers := []; sent := []; dialogs := [] |}.

(** The rate form asking for a code the API does not list. *)
Definition unknown_target : world :=
  {| entries := fun e =>
       match e with
       | from_currency_entry => "usd"
       | to_currency_entry => "xxx"
       | _ => ""
       end;
     labels := labels startup; timers := []; sent := []; dialogs := [] |}.

(** The API key is missing, the admin secrets are there. *)
Definition keyless : env :=
  {| API_KEY := None; ADMIN := Some "root"; PASSWORD := Some "s3cret";
     api := fun _ => Reply 200 (Some Sample.answer) |}.

End Scenario.

(** * Properties *)

(** ** Builtins *)

Example upper_mixed : upper "uSd-1 z" = "USD-1 Z".
Proof. reflexivity. Qed.

Example strip_both_ends : strip ("  a b " ++ LF) = "a b".
Proof. reflexivity. Qed.

Example repr_str_plain_code : repr_str "USD" = "'USD'".
Proof. reflexivity. Qed.

Example repr_str_with_quote :
  repr_str "it's" = String dquote ("it's" ++ String dquote "").
Proof. reflexivity. Qed.

Example str_of_rates :
  str (PyDict [("USD", PyInt 1); ("EUR", PyFloat "0.9235")]) =
    "{'USD': 1, 'EUR': 0.9235}".
Proof. reflexivity. Qed.

Example getitem_missing :
  getitem (PyDict [("USD", PyInt 1)]) (Some "XXX") = inr (KeyError (Some "XXX")).
Proof. reflexivity. Qed.

Lemma str_eq_true (s : string) (c : optstr) :
  str_eq s c = true <-> c = Some s.
Proof.
  destruct c as [t|]; simpl.
  - rewrite String.eqb_eq. split; intros H.
    + now subst.
    + now injection H.
  - split; discriminate.
Qed.

Lemma upper_char_not_lower (c : ascii) : is_lower (upper_char c) = false.
Proof.
  destruct c as [[] [] [] [] [] [] [] []]; reflexivity.
Qed.

Lemma upper_no_lower (s : string) : no_lower (upper s) = true.
Proof.
  induction s as [| c s IH]; [reflexivity |].
  unfold no_lower in *. simpl. now rewrite upper_char_not_lower, IH.
Qed.

Lemma upper_length (s : string) : String.length (upper s) = String.length s.
Proof.
  induction s as [| c s IH]; simpl; [reflexivity | now rewrite IH].
Qed.

Lemma deviates_neq (s t : string) : deviates s t -> s <> t.
Proof.
  induction 1 as [c d s Hcd | c s | c s | c s t _ IH]; intros Heq.
  - injection Heq as Hc. contradiction.
  - apply (f_equal String.length) in Heq. simpl in Heq. lia.
  - apply (f_equal String.length) in Heq. simpl in Heq. lia.
  - injection Heq as Hs. contradiction.
Qed.

(** ** The credential check *)

Lemma check_admin_state (E : env) (w : world) : snd (check_admin E w) = w.
Proof.
  unfold check_admin, bind, entry_get, ret. simpl.
  now destruct (str_eq _ _ && str_eq _ _).
Qed.

Lemma check_admin_value (E : env) (w : world) :
  fst (check_admin E w) =
  Ok (if str_eq (entries w admin_entry) (ADMIN E)
         && str_eq (entries w admin_password_entry) (PASSWORD E)
      then PyBool true else PyNone).
Proof.
  unfold check_admin, bind, entry_get, ret. simpl.
  now destruct (str_eq _ _ && str_eq _ _).
Qed.

Lemma check_admin_true (E : env) (w : world) :
  fst (check_admin E w) = Ok (PyBool true) <->
  ADMIN E = Some (entries w admin_entry) /\
  PASSWORD E = Some (entries w admin_password_entry).
Proof.
  rewrite check_admin_value, <- !str_eq_true, <- andb_true_iff.
  destruct (str_eq _ _ && str_eq _ _); split; intros H;
    try reflexivity; discriminate.
Qed.

Lemma check_admin_none (E : env) (w : world) :
  fst (check_admin E w) <> Ok (PyBool true) ->
  fst (check_admin E w) = Ok PyNone.
Proof.
  rewrite check_admin_value.
  destruct (str_eq _ _ && str_eq _ _); intros H; [now elim H | reflexivity].
Qed.

(** C3: [check_admin] returns [True] exactly when the submitted username is
    the configured one and the submitted password is the configured one,
    compared as they stand; a credential that deviates from the configured
    one by a single character never gives [True]; and whenever the pair does
    not match the result is [None], which is falsy and is not [False].  The
    check leaves the widgets as they are. *)
Theorem check_admin_exact (E : env) (w : world) :
  let u := entries w admin_entry in
  let p := entries w admin_password_entry in
  (fst (check_admin E w) = Ok (PyBool true) <->
     ADMIN E = Some u /\ PASSWORD E = Some p) /\
  (forall a b, ADMIN E = Some a -> PASSWORD E = Some b ->
     deviates a u \/ deviates b p ->
     fst (check_admin E w) <> Ok (PyBool true)) /\
  (~ (ADMIN E = Some u /\ PASSWORD E = Some p) ->
     exists v, fst (check_admin E w) = Ok v /\
               truthy v = false /\ v <> PyBool false) /\
  snd (check_admin E w) = w.
Proof.
  intros u p. split; [apply check_admin_true | split; [| split]].
  - intros a b Ha Hb Hdev Htrue.
    apply check_admin_true in Htrue. destruct Htrue as [Hu Hp].
    fold u in Hu. fold p in Hp.
    rewrite Ha in Hu. rewrite Hb in Hp.
    injection Hu as Hu. injection Hp as Hp.
    destruct Hdev as [Hd | Hd]; apply deviates_neq in Hd; contradiction.
  - intros Hno. exists PyNone. split; [| split].
    + apply check_admin_none. intros Htrue. apply Hno.
      now apply check_admin_true.
    + reflexivity.
    + discriminate.
  - apply check_admin_state.
Qed.

(** On the sample configuration, the right pair passes, and a password with
    one letter in the other case, or a username with a trailing space, does
    not: nothing is trimmed or case-folded. *)
Lemma check_admin_exact_witness :
  fst (check_admin Sample.online Sample.filled) = Ok (PyBool true) /\
  fst (check_admin Sample.online Sample.wrong_password) <> Ok (PyBool true) /\
  (exists v, fst (check_admin Sample.online Sample.wrong_password) = Ok v /\
             truthy v = false /\ v <> PyBool false).
Proof.
  split; [| split].
  - apply (proj1 (check_admin_exact Sample.online Sample.filled)).
    split; reflexivity.
  - apply (proj1 (proj2 (check_admin_exact Sample.online Sample.wrong_password))
             "root" "s3cret"); try reflexivity.
    right. apply dev_replace. discriminate.
  - apply (proj1 (proj2 (proj2 (check_admin_exact Sample.online Sample.wrong_password)))).
    intros [_ H]. discriminate H.
Defined.

(** ** How each handler runs *)

Lemma credentials_match_true (E : env) (w : world) :
  credentials_match E w = true <-> fst (check_admin E w) = Ok (PyBool true).
Proof.
  rewrite check_admin_value. fold (credentials_match E w).
  destruct (credentials_match E w); split; intros H;
    try reflexivity; discriminate.
Qed.

Lemma get_api_quota_denied (E : env) (w : world) :
  credentials_match E w = false ->
  let w' := snd (get_api_quota E w) in
  fst (get_api_quota E w) = Ok tt /\
  sent w' = sent w /\
  labels w' quota_label = "Invalid admin credentials!" /\
  entries w' = entries w /\
  timers w' = (timers w ++ [(3000%Z, quota_label)])%list /\
  dialogs w' = dialogs w.
Proof.
  unfold credentials_match. intros H. unfold_handler. rewrite H. simpl.
  repeat split.
Qed.

Lemma get_api_quota_granted (E : env) (w : world) :
  credentials_match E w = true ->
  let w' := snd (get_api_quota E w) in
  sent w' = (sent w ++ [url_quota E])%list /\
  match extract (api E (url_quota E)) [Some "requests_remaining"] with
  | inl r =>
      fst (get_api_quota E w) = Ok tt /\
      labels w' quota_label = "Quota: " ++ str r ++ " requests remaining" /\
      entries w' admin_entry = "" /\
      entries w' admin_password_entry = "" /\
      timers w' = (timers w ++ [(3000%Z, quota_label)])%list
  | inr e =>
      fst (get_api_quota E w) = Raise e /\
      labels w' = labels w /\
      entries w' = entries w /\
      timers w' = timers w
  end.
Proof.
  unfold credentials_match. intros H. unfold_handler. rewrite H. simpl.
  destruct (api E (url_quota E)) as [| st [j |]]; simpl;
    [now repeat split | | now repeat split].
  destruct (getitem j (Some "requests_remaining")); simpl; now repeat split.
Qed.

Lemma get_exchange_rate_no_source (E : env) (w : world) :
  entries w from_currency_entry = "" ->
  let w' := snd (get_exchange_rate E w) in
  fst (get_exchange_rate E w) = Ok tt /\
  sent w' = sent w /\
  labels w' exchange_rate_label = "Please enter the source currency!" /\
  entries w' = entries w /\
  timers w' = (timers w ++ [(3000%Z, exchange_rate_label)])%list /\
  dialogs w' = dialogs w.
Proof.
  intros H. unfold_handler. rewrite H. simpl. repeat split.
Qed.

Lemma truthy_upper (s : string) : s <> "" -> truthy_str (upper s) = true.
Proof.
  intros H. destruct s; [now elim H | reflexivity].
Qed.

Lemma truthy_nonempty (s : string) : s <> "" -> truthy_str s = true.
Proof.
  intros H. destruct s; [now elim H | reflexivity].
Qed.

Lemma get_exchange_rate_pair (E : env) (w : world) :
  let a := entries w from_currency_entry in
  let b := entries w to_currency_entry in
  let url := url_latest E (Some (upper a)) in
  let w' := snd (get_exchange_rate E w) in
  a <> "" -> b <> "" ->
  sent w' = (sent w ++ [url])%list /\
  dialogs w' = dialogs w /\
  match extract (api E url) [Some "conversion_rates"; Some (upper b)] with
  | inl r =>
      fst (get_exchange_rate E w) = Ok tt /\
      labels w' exchange_rate_label =
        "Exchange rate for " ++ upper a ++ " to " ++ upper b ++ ": " ++ str r /\
      entries w' from_currency_entry = "" /\
      entries w' to_currency_entry = "" /\
      timers w' = (timers w ++ [(10000%Z, exchange_rate_label)])%list
  | inr e =>
      fst (get_exchange_rate E w) = Raise e /\
      labels w' = labels w /\
      entries w' = entries w /\
      timers w' = timers w
  end.
Proof.
  intros a b url w' Ha Hb. subst w' url. unfold_handler. fold a b.
  rewrite (truthy_nonempty a Ha), (truthy_nonempty b Hb). simpl.
  rewrite (truthy_upper a Ha), (truthy_upper b Hb). simpl.
  destruct (api E (url_latest E (Some (upper a)))) as [| st [j |]]; simpl;
    [now repeat split | | now repeat split].
  destruct (getitem j (Some "conversion_rates")) as [rates | e]; simpl;
    [| now repeat split].
  destruct (getitem rates (Some (upper b))); simpl; now repeat split.
Qed.

Lemma get_exchange_rate_table (E : env) (w : world) :
  let a := entries w from_currency_entry in
  let url := url_latest E (Some (upper a)) in
  let w' := snd (get_exchange_rate E w) in
  a <> "" -> entries w to_currency_entry = "" ->
  sent w' = (sent w ++ [url])%list /\
  labels w' = labels w /\
  match extract (api E url) [Some "conversion_rates"] with
  | inl rates =>
      fst (get_exchange_rate E w) = Ok tt /\
      dialogs w' =
        {| stext := Some {| content := format_rates rates ++ "";
                            disabled := true |};
           grabbed := true |} :: dialogs w
  | inr e =>
      fst (get_exchange_rate E w) = Raise e /\
      dialogs w' = {| stext := None; grabbed := false |} :: dialogs w
  end.
Proof.
  intros a url w' Ha Hb. subst w' url. unfold_handler. fold a.
  rewrite Hb, (truthy_nonempty a Ha). simpl.
  rewrite (truthy_upper a Ha). simpl.
  destruct (api E (url_latest E (Some (upper a)))) as [| st [j |]]; simpl;
    [now repeat split | | now repeat split].
  destruct (getitem j (Some "conversion_rates")); simpl; now repeat split.
Qed.

Lemma convert_currency_run (E : env) (w : world) :
  let a := upper (entries w source_currency_entry) in
  let b := upper (entries w target_currency_entry) in
  let url := url_pair E a b (entries w amount_entry) in
  let w' := snd (convert_currency E w) in
  sent w' = (sent w ++ [url])%list /\
  dialogs w' = dialogs w /\
  match extract (api E url) [Some "conversion_result"] with
  | inl r =>
      fst (convert_currency E w) = Ok tt /\
      labels w' display_result = a ++ " to " ++ b ++ ": " ++ str r /\
      entries w' source_currency_entry = "" /\
      entries w' target_currency_entry = "" /\
      entries w' amount_entry = "" /\
      timers w' = (timers w ++ [(10000%Z, display_result)])%list
  | inr e =>
      fst (convert_currency E w) = Raise e /\
      labels w' = labels w /\
      entries w' = entries w /\
      timers w' = timers w
  end.
Proof.
  intros a b url w'. subst w' url. unfold_handler. fold a b.
  destruct (api E (url_pair E a b (entries w amount_entry))) as [| st [j |]];
    simpl; [now repeat split | | now repeat split].
  destruct (getitem j (Some "conversion_result")); simpl; now repeat split.
Qed.

(** ** The convert command *)

(** C1: with currency codes A and B (ASCII text) and an amount X in the
    convert form, and a reply to the pair request whose JSON body holds [r]
    under ['conversion_result'], [convert_currency] requests the pair
    endpoint for upper-cased A, upper-cased B and X, and sets the result
    label to exactly "A to B: r" with A and B upper-cased: as long as A and
    B, with no letter a to z left in them. *)
Theorem convert_currency_displays
    (E : env) (w : world) (A B X : string) (st : Z) (j r : value) :
  entries w source_currency_entry = A ->
  entries w target_currency_entry = B ->
  entries w amount_entry = X ->
  is_ascii A = true ->
  is_ascii B = true ->
  api E (url_pair E (upper A) (upper B) X) = Reply st (Some j) ->
  getitem j (Some "conversion_result") = inl r ->
  let w' := snd (convert_currency E w) in
  fst (convert_currency E w) = Ok tt /\
  sent w' =
    (sent w ++ [("https://v6.exchangerate-api.com/v6/" ++ fmt (API_KEY E)
                  ++ "/pair/" ++ upper A ++ "/" ++ upper B ++ "/" ++ X)%string])%list /\
  labels w' display_result = upper A ++ " to " ++ upper B ++ ": " ++ str r /\
  no_lower (upper A) = true /\
  no_lower (upper B) = true /\
  String.length (upper A) = String.length A /\
  String.length (upper B) = String.length B.
Proof.
  intros HA HB HX _ _ Hreply Hkey w'.
  destruct (convert_currency_run E w) as (Hsent & _ & Hrun).
  rewrite HA, HB, HX in Hsent, Hrun.
  rewrite Hreply in Hrun. simpl in Hrun. rewrite Hkey in Hrun.
  destruct Hrun as (Hok & Hlabel & _).
  split; [exact Hok | split; [exact Hsent | split; [exact Hlabel |]]].
  repeat split; first [apply upper_no_lower | apply upper_length].
Qed.

(** Codes typed in lower case (usd, eur, 100), and the scenario USD, EUR,
    100, against the sample API: both show "USD to EUR: 92.35". *)
Lemma convert_currency_displays_witness :
  (fst (convert_currency Sample.online Sample.filled) = Ok tt /\
   sent (snd (convert_currency Sample.online Sample.filled)) =
     ["https://v6.exchangerate-api.com/v6/k3y/pair/USD/EUR/100"] /\
   labels (snd (convert_currency Sample.online Sample.filled)) display_result =
     "USD to EUR: 92.35") /\
  (fst (convert_currency Sample.online Sample.usd_eur_100) = Ok tt /\
   sent (snd (convert_currency Sample.online Sample.usd_eur_100)) =
     ["https://v6.exchangerate-api.com/v6/k3y/pair/USD/EUR/100"] /\
   labels (snd (convert_currency Sample.online Sample.usd_eur_100)) display_result =
     "USD to EUR: 92.35").
Proof.
  split.
  - destruct (convert_currency_displays Sample.online Sample.filled
                "usd" "eur" "100" 200%Z Sample.answer (PyFloat "92.35")
                eq_refl eq_refl eq_refl eq_refl eq_refl eq_refl eq_refl)
      as (Hok & Hs & Hl & _).
    split; [exact Hok | split; [exact Hs | exact Hl]].
  - destruct (convert_currency_displays Sample.online Sample.usd_eur_100
                "USD" "EUR" "100" 200%Z Sample.answer (PyFloat "92.35")
                eq_refl eq_refl eq_refl eq_refl eq_refl eq_refl eq_refl)
      as (Hok & Hs & Hl & _).
    split; [exact Hok | split; [exact Hs | exact Hl]].
Defined.

(** C10: [convert_currency] has no guard on its fields.  Whatever the form
    holds, it sends one pair request, whose last part is the amount field as
    it stands; for ASCII codes the two parts before it are the upper-cased
    source and target fields, so with all three fields empty the request is
    ".../pair///".  [get_exchange_rate], in contrast, sends nothing when its
    source field is empty. *)
Theorem convert_currency_unguarded (E : env) (w : world) :
  (exists a b,
     sent (snd (convert_currency E w)) =
       (sent w ++ [url_pair E a b (entries w amount_entry)])%list) /\
  (is_ascii (entries w source_currency_entry) = true ->
   is_ascii (entries w target_currency_entry) = true ->
   sent (snd (convert_currency E w)) =
     (sent w ++ [url_pair E (upper (entries w source_currency_entry))
                          (upper (entries w target_currency_entry))
                          (entries w amount_entry)])%list) /\
  (entries w source_currency_entry = "" ->
   entries w target_currency_entry = "" ->
   entries w amount_entry = "" ->
   sent (snd (convert_currency E w)) =
     (sent w ++ [(api_root E ++ "/pair///")%string])%list) /\
  (entries w from_currency_entry = "" ->
   sent (snd (get_exchange_rate E w)) = sent w).
Proof.
  destruct (convert_currency_run E w) as (Hsent & _).
  split; [| split; [| split]].
  - eexists. eexists. exact Hsent.
  - intros _ _. exact Hsent.
  - intros Ha Hb Hx. rewrite Hsent, Ha, Hb, Hx. reflexivity.
  - intros Ha. apply (get_exchange_rate_no_source E w Ha).
Qed.

(** On a freshly started window every field is empty; and a form filled in
    lower case is sent in upper case. *)
Lemma convert_currency_unguarded_witness :
  sent (snd (convert_currency Sample.online startup)) =
    ["https://v6.exchangerate-api.com/v6/k3y/pair///"] /\
  sent (snd (get_exchange_rate Sample.online startup)) = [] /\
  sent (snd (convert_currency Sample.online Sample.filled)) =
    ["https://v6.exchangerate-api.com/v6/k3y/pair/USD/EUR/100"].
Proof.
  destruct (convert_currency_unguarded Sample.online startup) as (_ & _ & Hc & Hr).
  destruct (convert_currency_unguarded Sample.online Sample.filled) as (_ & Hf & _).
  split; [apply Hc; reflexivity | split; [apply Hr; reflexivity |]].
  apply Hf; reflexivity.
Defined.

(** ** The rate lookup *)

(** C5: with the source field of the rate form empty, whatever the target
    field holds, [get_exchange_rate] returns normally having sent no request
    and opened no dialog, and the rate label reads
    "Please enter the source currency!". *)
Theorem get_exchange_rate_needs_source (E : env) (w : world) :
  entries w from_currency_entry = "" ->
  let w' := snd (get_exchange_rate E w) in
  fst (get_exchange_rate E w) = Ok tt /\
  sent w' = sent w /\
  dialogs w' = dialogs w /\
  labels w' exchange_rate_label = "Please enter the source currency!".
Proof.
  intros H w'.
  destruct (get_exchange_rate_no_source E w H) as (Hok & Hs & Hl & _ & _ & Hd).
  repeat split; assumption.
Qed.

Lemma get_exchange_rate_needs_source_witness :
  let w' := snd (get_exchange_rate Sample.online Sample.target_only) in
  fst (get_exchange_rate Sample.online Sample.target_only) = Ok tt /\
  sent w' = [] /\
  dialogs w' = [] /\
  labels w' exchange_rate_label = "Please enter the source currency!".
Proof.
  apply (get_exchange_rate_needs_source Sample.online Sample.target_only).
  reflexivity.
Defined.



(** ** The quota command *)

Lemma credentials_match_false (E : env) (w : world) :
  fst (check_admin E w) <> Ok (PyBool true) -> credentials_match E w = false.
Proof.
  intros H. destruct (credentials_match E w) eqn:Hm; [| reflexivity].
  elim H. now apply credentials_match_true.
Qed.

(** C2: whatever username and password are submitted, when the credential
    check fails [get_api_quota] sends no request and shows
    "Invalid admin credentials!"; and if it does send a request, it is the
    quota request, and the submitted username is the configured one and the
    submitted password is the configured one. *)
Theorem get_api_quota_gate (E : env) (w : world) :
  let w' := snd (get_api_quota E w) in
  (fst (check_admin E w) <> Ok (PyBool true) ->
     fst (get_api_quota E w) = Ok tt /\
     sent w' = sent w /\
     labels w' quota_label = "Invalid admin credentials!") /\
  (sent w' <> sent w ->
     sent w' = (sent w ++ [url_quota E])%list /\
     ADMIN E = Some (entries w admin_entry) /\
     PASSWORD E = Some (entries w admin_password_entry)).
Proof.
  intros w'. split.
  - intros Hfail. apply credentials_match_false in Hfail.
    destruct (get_api_quota_denied E w Hfail) as (Hok & Hs & Hl & _).
    repeat split; assumption.
  - intros Hsent. destruct (credentials_match E w) eqn:Hm.
    + split; [apply (get_api_quota_granted E w Hm) |].
      apply check_admin_true. now apply credentials_match_true.
    + elim Hsent. apply (get_api_quota_denied E w Hm).
Qed.

(** A wrong password stops the command before the network; the right pair
    lets it through. *)
Lemma get_api_quota_gate_witness :
  (fst (get_api_quota Sample.online Sample.wrong_password) = Ok tt /\
   sent (snd (get_api_quota Sample.online Sample.wrong_password)) = [] /\
   labels (snd (get_api_quota Sample.online Sample.wrong_password)) quota_label =
     "Invalid admin credentials!") /\
  (sent (snd (get_api_quota Sample.online Sample.filled)) =
     ["https://v6.exchangerate-api.com/v6/k3y/quota"] /\
   ADMIN Sample.online = Some "root" /\
   PASSWORD Sample.online = Some "s3cret").
Proof.
  split.
  - apply (proj1 (get_api_quota_gate Sample.online Sample.wrong_password)).
    discriminate.
  - apply (proj2 (get_api_quota_gate Sample.online Sample.filled)).
    discriminate.
Defined.

(** C9: when the admin username or the admin password is missing from the
    environment, so that the global is [None], no submitted pair of strings
    passes [check_admin], and [get_api_quota] never sends a request: it only
    ever reports invalid credentials. *)
Theorem missing_secret_locks_quota (E : env) (w : world) :
  ADMIN E = None \/ PASSWORD E = None ->
  fst (check_admin E w) = Ok PyNone /\
  fst (get_api_quota E w) = Ok tt /\
  sent (snd (get_api_quota E w)) = sent w /\
  labels (snd (get_api_quota E w)) quota_label = "Invalid admin credentials!".
Proof.
  intros Hmissing.
  assert (Hfail : fst (check_admin E w) <> Ok (PyBool true)).
  { intros Htrue. apply check_admin_true in Htrue. destruct Htrue as [Hu Hp].
    destruct Hmissing as [H | H]; congruence. }
  split; [now apply check_admin_none |].
  apply credentials_match_false in Hfail.
  destruct (get_api_quota_denied E w Hfail) as (Hok & Hs & Hl & _).
  repeat split; assumption.
Qed.

Lemma missing_secret_locks_quota_witness :
  fst (check_admin Sample.unconfigured Sample.filled) = Ok PyNone /\
  fst (get_api_quota Sample.unconfigured Sample.filled) = Ok tt /\
  sent (snd (get_api_quota Sample.unconfigured Sample.filled)) = [] /\
  labels (snd (get_api_quota Sample.unconfigured Sample.filled)) quota_label =
    "Invalid admin credentials!".
Proof.
  apply (missing_secret_locks_quota Sample.unconfigured Sample.filled).
  left. reflexivity.
Defined.

(** C6, as stated, fails: with the right credentials and the network down,
    the quota request is sent, the handler raises, and both credential
    fields still hold what was typed. *)
Lemma quota_fields_survive_failure :
  let w' := snd (get_api_quota Sample.offline Sample.filled) in
  fst (check_admin Sample.offline Sample.filled) = Ok (PyBool true) /\
  sent w' = ["https://v6.exchangerate-api.com/v6/k3y/quota"] /\
  fst (get_api_quota Sample.offline Sample.filled) = Raise RequestException /\
  entries w' admin_entry = "root" /\
  entries w' admin_password_entry = "s3cret" /\
  ~ (entries w' admin_entry = "" /\ entries w' admin_password_entry = "").
Proof.
  repeat split. intros [H _]. discriminate H.
Qed.

(** C6, amended: after a successful credential check the quota request is
    sent; if a reply comes back whose JSON body holds ['requests_remaining'],
    the count is shown and both credential fields are cleared; if the
    handler raises instead, every entry field, the two credential fields
    included, keeps its content. *)
Theorem get_api_quota_clears_on_success (E : env) (w : world) :
  fst (check_admin E w) = Ok (PyBool true) ->
  let w' := snd (get_api_quota E w) in
  sent w' = (sent w ++ [url_quota E])%list /\
  (forall st j r,
     api E (url_quota E) = Reply st (Some j) ->
     getitem j (Some "requests_remaining") = inl r ->
     fst (get_api_quota E w) = Ok tt /\
     labels w' quota_label = "Quota: " ++ str r ++ " requests remaining" /\
     entries w' admin_entry = "" /\
     entries w' admin_password_entry = "") /\
  (forall e, fst (get_api_quota E w) = Raise e -> entries w' = entries w).
Proof.
  intros Hcheck w'. apply credentials_match_true in Hcheck.
  destruct (get_api_quota_granted E w Hcheck) as (Hsent & Hrun).
  split; [exact Hsent | split].
  - intros st j r Hreply Hkey. rewrite Hreply in Hrun. simpl in Hrun.
    rewrite Hkey in Hrun. destruct Hrun as (Hok & Hl & Ha & Hp & _).
    repeat split; assumption.
  - intros e He.
    destruct (extract (api E (url_quota E)) [Some "requests_remaining"]).
    + destruct Hrun as (Hok & _). rewrite Hok in He. discriminate He.
    + apply Hrun.
Qed.

Lemma get_api_quota_clears_on_success_witness :
  let w' := snd (get_api_quota Sample.online Sample.filled) in
  fst (get_api_quota Sample.online Sample.filled) = Ok tt /\
  labels w' quota_label = "Quota: 1200 requests remaining" /\
  entries w' admin_entry = "" /\
  entries w' admin_password_entry = "".
Proof.
  apply (proj1 (proj2 (get_api_quota_clears_on_success Sample.online Sample.filled
                         eq_refl)) 200%Z Sample.answer (PyInt 1200));
    reflexivity.
Defined.

(** ** Faults *)

(** The API answering 404 with its error object: the body is JSON, the key
    is not in it, and the handler dies on the [KeyError]. *)
Example rejected_code_raises :
  fst (convert_currency Sample.rejecting Sample.filled) =
    Raise (KeyError (Some "conversion_result")) /\
  labels (snd (convert_currency Sample.rejecting Sample.filled)) display_result = "" /\
  entries (snd (convert_currency Sample.rejecting Sample.filled)) amount_entry = "100".
Proof.
  repeat split.
Qed.

(** C7, as stated, fails for the status code: a reply with status 404 whose
    body is JSON and holds ['conversion_result'] makes [convert_currency]
    return normally and show the result. *)
Lemma odd_status_is_no_fault :
  let url := "https://v6.exchangerate-api.com/v6/k3y/pair/USD/EUR/100" in
  api Sample.odd_status url = Reply 404 (Some Sample.answer) /\
  sent (snd (convert_currency Sample.odd_status Sample.filled)) = [url] /\
  fst (convert_currency Sample.odd_status Sample.filled) = Ok tt /\
  labels (snd (convert_currency Sample.odd_status Sample.filled)) display_result =
    "USD to EUR: 92.35" /\
  ~ (exists e, fst (convert_currency Sample.odd_status Sample.filled) = Raise e).
Proof.
  repeat split. intros [e H]. discriminate H.
Qed.

(** C7, amended: in the handlers that go to the network ([convert_currency];
    [get_exchange_rate] with a source and a target; [get_api_quota] after a
    successful credential check) the handler raises exactly when the request
    gets no reply, the body is not JSON, or an expected key is not there.  It
    then stops with every label, every entry and the pending timers as they
    were: no message is shown, nothing is cleared.  The status code is never
    read, so a status other than 200 changes nothing by itself. *)
Theorem faults_abort_handler (E : env) (w : world) (e : exn) :
  let a := upper (entries w source_currency_entry) in
  let b := upper (entries w target_currency_entry) in
  let f := upper (entries w from_currency_entry) in
  let t := upper (entries w to_currency_entry) in
  let unchanged (w' : world) :=
    labels w' = labels w /\ entries w' = entries w /\ timers w' = timers w in
  ((extract (api E (url_pair E a b (entries w amount_entry)))
      [Some "conversion_result"] = inr e <->
    fst (convert_currency E w) = Raise e) /\
   (fst (convert_currency E w) = Raise e ->
    unchanged (snd (convert_currency E w)))) /\
  (entries w from_currency_entry <> "" ->
   entries w to_currency_entry <> "" ->
   (extract (api E (url_latest E (Some f)))
      [Some "conversion_rates"; Some t] = inr e <->
    fst (get_exchange_rate E w) = Raise e) /\
   (fst (get_exchange_rate E w) = Raise e ->
    unchanged (snd (get_exchange_rate E w)))) /\
  (fst (check_admin E w) = Ok (PyBool true) ->
   (extract (api E (url_quota E)) [Some "requests_remaining"] = inr e <->
    fst (get_api_quota E w) = Raise e) /\
   (fst (get_api_quota E w) = Raise e ->
    unchanged (snd (get_api_quota E w)))) /\
  (forall st st' body path,
     extract (Reply st body) path = extract (Reply st' body) path).
Proof.
  intros a b f t unchanged. subst unchanged.
  split; [| split; [| split]].
  - destruct (convert_currency_run E w) as (_ & _ & Hrun). fold a b in Hrun.
    destruct (extract _ _) as [r | e'].
    + destruct Hrun as (Hok & _). rewrite Hok. no_fault.
    + destruct Hrun as (Hraise & Hrest). rewrite Hraise. fault Hrest.
  - intros Hf Ht.
    destruct (get_exchange_rate_pair E w Hf Ht) as (_ & _ & Hrun).
    fold f t in Hrun.
    destruct (extract _ _) as [r | e'].
    + destruct Hrun as (Hok & _). rewrite Hok. no_fault.
    + destruct Hrun as (Hraise & Hrest). rewrite Hraise. fault Hrest.
  - intros Hcheck. apply credentials_match_true in Hcheck.
    destruct (get_api_quota_granted E w Hcheck) as (_ & Hrun).
    destruct (extract _ _) as [r | e'].
    + destruct Hrun as (Hok & _). rewrite Hok. no_fault.
    + destruct Hrun as (Hraise & Hrest). rewrite Hraise. fault Hrest.
  - reflexivity.
Qed.

(** With the network down, all three handlers raise and leave the window as
    it was. *)
Lemma faults_abort_handler_witness :
  fst (convert_currency Sample.offline Sample.filled) = Raise RequestException /\
  fst (get_exchange_rate Sample.offline Sample.filled) = Raise RequestException /\
  fst (get_api_quota Sample.offline Sample.filled) = Raise RequestException /\
  labels (snd (get_api_quota Sample.offline Sample.filled)) = labels Sample.filled.
Proof.
  destruct (faults_abort_handler Sample.offline Sample.filled RequestException)
    as ((Hc & _) & Hr & Hq & _).
  split; [apply Hc; reflexivity |].
  split; [apply Hr; try discriminate; reflexivity |].
  destruct (Hq eq_refl) as (Hiff & Hsame).
  split; [apply Hiff; reflexivity |].
  apply Hsame, Hiff. reflexivity.
Defined.

(** ** The rate table *)

Lemma append_nil_r (s : string) : s ++ "" = s.
Proof.
  induction s as [| c s IH]; simpl; [reflexivity | now rewrite IH].
Qed.

Lemma append_assoc (s t u : string) : (s ++ t) ++ u = s ++ t ++ u.
Proof.
  induction s as [| c s IH]; simpl; [reflexivity | now rewrite IH].
Qed.

Lemma contains_app (c : ascii) (s t : string) :
  contains c (s ++ t) = contains c s || contains c t.
Proof.
  induction s as [| d s IH]; simpl; [reflexivity |].
  now rewrite IH, orb_assoc.
Qed.

Lemma re_sub_class_app (cls repl s t : string) :
  re_sub_class cls repl (s ++ t) =
  re_sub_class cls repl s ++ re_sub_class cls repl t.
Proof.
  induction s as [| c s IH]; simpl; [reflexivity |].
  now rewrite IH, append_assoc.
Qed.

Lemma re_sub_class_contains (cls repl s : string) (c : ascii) :
  contains c (re_sub_class cls repl s) = true ->
  contains c repl = true \/ (contains c s = true /\ contains c cls = false).
Proof.
  induction s as [| d s IH]; simpl; [discriminate |].
  rewrite contains_app. intros H. apply orb_true_iff in H.
  destruct H as [H | H].
  - destruct (contains d cls) eqn:Hd; [now left |].
    simpl in H. rewrite orb_false_r in H. apply Ascii.eqb_eq in H. subst d.
    right. rewrite Ascii.eqb_refl. now split.
  - destruct (IH H) as [Hr | [Hs Hc]]; [now left |].
    right. rewrite Hs, orb_true_r. now split.
Qed.

Lemma lstrip_contains (c : ascii) (s : string) :
  contains c (lstrip s) = true -> contains c s = true.
Proof.
  induction s as [| d s IH]; simpl; [discriminate |].
  destruct (is_space d); simpl; [| trivial].
  intros H. rewrite (IH H). apply orb_true_r.
Qed.

Lemma rstrip_contains (c : ascii) (s : string) :
  contains c (rstrip s) = true -> contains c s = true.
Proof.
  induction s as [| d s IH]; simpl; [discriminate |].
  destruct (rstrip s) as [| e r].
  - destruct (is_space d); simpl; [discriminate |].
    rewrite orb_false_r. intros H. now rewrite H.
  - simpl. intros H. apply orb_true_iff in H. destruct H as [H | H].
    + now rewrite H.
    + simpl in IH. rewrite (IH H). apply orb_true_r.
Qed.

Lemma lstrip_head_ok (s : string) : head_ok s = true -> lstrip s = s.
Proof.
  destruct s as [| c s]; simpl; [reflexivity |].
  intros H. apply negb_true_iff in H. now rewrite H.
Qed.

Lemma rstrip_last_ok (s : string) : last_ok s = true -> rstrip s = s.
Proof.
  induction s as [| c s IH]; [reflexivity |].
  destruct s as [| d s].
  - simpl. intros H. apply negb_true_iff in H. now rewrite H.
  - intros H. change (last_ok (String d s) = true) in H.
    specialize (IH H).
    change (rstrip (String c (String d s)))
      with (match rstrip (String d s) with
            | "" => if is_space c then "" else String c ""
            | r' => String c r'
            end).
    now rewrite IH.
Qed.

Lemma strip_guarded (s : string) :
  head_ok s = true -> last_ok s = true -> strip s = s.
Proof.
  intros Hh Hl. unfold strip. rewrite (lstrip_head_ok s Hh).
  now apply rstrip_last_ok.
Qed.

Lemma last_ok_app (s t : string) :
  t <> "" -> last_ok t = true -> last_ok (s ++ t) = true.
Proof.
  intros Ht Hl. induction s as [| c s IH]; [exact Hl |].
  simpl. destruct (s ++ t) eqn:Hst; [| exact IH].
  destruct s; simpl in Hst; [now elim Ht | discriminate].
Qed.

Lemma plain_char_facts (c : ascii) :
  plain_char c = true ->
  repr_char squote c = String c "" /\
  tidy (String c "") = String c "" /\
  is_space c = false /\
  Ascii.eqb squote c = false.
Proof.
  destruct c as [[] [] [] [] [] [] [] []]; intros H;
    try discriminate H; repeat split.
Qed.

Lemma number_char_plain (c : ascii) : number_char c = true -> plain_char c = true.
Proof.
  destruct c as [[] [] [] [] [] [] [] []]; intros H;
    try discriminate H; reflexivity.
Qed.

Lemma tidy_app (s t : string) : tidy (s ++ t) = tidy s ++ tidy t.
Proof.
  unfold tidy. now rewrite !re_sub_class_app.
Qed.

Lemma tidy_plain (s : string) : all_chars plain_char s = true -> tidy s = s.
Proof.
  induction s as [| c s IH]; [reflexivity |].
  simpl. intros H. apply andb_true_iff in H. destruct H as [Hc Hs].
  change (String c s) with (String c "" ++ s). rewrite tidy_app, (IH Hs).
  destruct (plain_char_facts c Hc) as (_ & Ht & _). now rewrite Ht.
Qed.

Lemma repr_str_plain (s : string) :
  all_chars plain_char s = true -> repr_str s = "'" ++ s ++ "'".
Proof.
  intros H.
  assert (Hq : contains squote s = false).
  { induction s as [| c s IH]; [reflexivity |].
    simpl in H. apply andb_true_iff in H. destruct H as [Hc Hs].
    destruct (plain_char_facts c Hc) as (_ & _ & _ & Hne).
    change (contains squote (String c s))
      with (Ascii.eqb squote c || contains squote s).
    now rewrite Hne, (IH Hs). }
  unfold repr_str. rewrite Hq.
  change (String squote (repr_body squote s ++ String squote "")
          = String squote (s ++ String squote "")).
  f_equal. f_equal. clear Hq.
  induction s as [| c s IH]; [reflexivity |].
  simpl in H. apply andb_true_iff in H. destruct H as [Hc Hs].
  destruct (plain_char_facts c Hc) as (Hr & _).
  change (repr_body squote (String c s))
    with (repr_char squote c ++ repr_body squote s).
  now rewrite Hr, (IH Hs).
Qed.

Lemma plain_last_ok (s : string) : all_chars plain_char s = true -> last_ok s = true.
Proof.
  induction s as [| c s IH]; [reflexivity |].
  simpl. intros H. apply andb_true_iff in H. destruct H as [Hc Hs].
  destruct s; [| now apply IH].
  destruct (plain_char_facts c Hc) as (_ & _ & Hsp & _). now rewrite Hsp.
Qed.

Lemma uint_text_number (d : Decimal.uint) :
  all_chars number_char (NilEmpty.string_of_uint d) = true.
Proof.
  induction d; simpl; try assumption; reflexivity.
Qed.

Lemma int_repr_number (z : Z) :
  int_repr z <> "" /\ all_chars number_char (int_repr z) = true.
Proof.
  unfold int_repr.
  assert (Hu : forall d, NilZero.string_of_uint d <> "" /\
                         all_chars number_char (NilZero.string_of_uint d) = true).
  { intros d. split.
    - destruct d; discriminate.
    - destruct d; try reflexivity;
        apply (uint_text_number (_ d)). }
  destruct (Z.to_int z) as [d | d]; simpl.
  - apply Hu.
  - split; [discriminate | apply Hu].
Qed.

Lemma all_chars_weaken (P Q : ascii -> bool) (s : string) :
  (forall c, P c = true -> Q c = true) ->
  all_chars P s = true -> all_chars Q s = true.
Proof.
  intros HPQ. induction s as [| c s IH]; [reflexivity |].
  simpl. intros H. apply andb_true_iff in H. destruct H as [Hc Hs].
  now rewrite (HPQ c Hc), (IH Hs).
Qed.

Lemma rate_text (v : value) :
  is_rate v = true ->
  str v = repr v /\ repr v <> "" /\ all_chars plain_char (repr v) = true.
Proof.
  destruct v; try discriminate; simpl; intros H.
  - destruct (int_repr_number z) as [Hne Hall].
    repeat split; [exact Hne |].
    exact (all_chars_weaken _ _ _ number_char_plain Hall).
  - apply andb_true_iff in H. destruct H as [Hne Hall].
    repeat split.
    + intros ->. discriminate Hne.
    + exact (all_chars_weaken _ _ _ number_char_plain Hall).
Qed.

(** One item of the printed dict, once tidied, is the line of its entry. *)
Lemma tidy_item (k : string) (v : value) :
  all_chars plain_char k = true -> is_rate v = true ->
  tidy (repr_str k ++ ": " ++ repr v) = rate_line (k, v).
Proof.
  intros Hk Hv. destruct (rate_text v Hv) as (Hstr & _ & Hplain).
  rewrite (repr_str_plain k Hk), !tidy_app, (tidy_plain k Hk),
    (tidy_plain _ Hplain).
  change (tidy "'") with "". change (tidy ": ") with ": ".
  unfold rate_line. simpl fst. simpl snd.
  now rewrite Hstr, append_nil_r.
Qed.

Lemma tidy_concat (items : list string) :
  tidy (String.concat ", " items) =
  String.concat (LF ++ " ") (map tidy items).
Proof.
  induction items as [| x [| y r] IH]; [reflexivity | reflexivity |].
  change (String.concat ", " (x :: y :: r))
    with (x ++ ", " ++ String.concat ", " (y :: r)).
  rewrite !tidy_app, IH. reflexivity.
Qed.

Lemma rate_line_guarded (k : string) (v : value) :
  all_chars plain_char k = true -> is_rate v = true ->
  rate_line (k, v) <> "" /\
  head_ok (rate_line (k, v)) = true /\
  last_ok (rate_line (k, v)) = true.
Proof.
  intros Hk Hv. destruct (rate_text v Hv) as (Hstr & Hne & Hplain).
  unfold rate_line. simpl fst. simpl snd. rewrite Hstr. split; [| split].
  - destruct k; discriminate.
  - destruct k as [| c k]; [reflexivity |].
    simpl in Hk. apply andb_true_iff in Hk. destruct Hk as [Hc _].
    destruct (plain_char_facts c Hc) as (_ & _ & Hsp & _).
    simpl. now rewrite Hsp.
  - apply last_ok_app.
    + discriminate.
    + apply (last_ok_app ": " (repr v) Hne). now apply plain_last_ok.
Qed.

Lemma concat_guarded (sep : string) (lines : list string) :
  Forall (fun l => l <> "" /\ head_ok l = true /\ last_ok l = true) lines ->
  head_ok (String.concat sep lines) = true /\
  last_ok (String.concat sep lines) = true /\
  (lines <> [] -> String.concat sep lines <> "").
Proof.
  induction 1 as [| x r (Hne & Hh & Hl) Hr IH]; [now repeat split |].
  destruct r as [| y r]; [now repeat split |].
  change (String.concat sep (x :: y :: r))
    with (x ++ sep ++ String.concat sep (y :: r)).
  destruct IH as (_ & IHl & IHne).
  assert (Hrest : String.concat sep (y :: r) <> "") by (apply IHne; discriminate).
  split; [| split].
  - destruct x; [now elim Hne | exact Hh].
  - apply last_ok_app.
    + destruct sep; [exact Hrest | discriminate].
    + now apply last_ok_app.
  - intros _. destruct x; [now elim Hne | discriminate].
Qed.

Lemma format_rates_tidy (v : value) : format_rates v = strip (tidy (str v)).
Proof. reflexivity. Qed.

Lemma tidy_dict (d : list (string * value)) :
  rate_map d = true ->
  tidy (str (PyDict d)) = String.concat (LF ++ " ") (map rate_line d).
Proof.
  intros Hd.
  change (str (PyDict d))
    with ("{" ++ String.concat ", "
                   (map (fun kv => repr_str (fst kv) ++ ": " ++ repr (snd kv)) d)
              ++ "}").
  rewrite !tidy_app, tidy_concat, map_map.
  change (tidy "{") with "". change (tidy "}") with "".
  rewrite append_nil_r. simpl. f_equal.
  apply map_ext_in. intros [k v] Hin.
  unfold rate_map in Hd. rewrite forallb_forall in Hd.
  specialize (Hd _ Hin). apply andb_true_iff in Hd. destruct Hd as [Hk Hv].
  now apply tidy_item.
Qed.

Lemma rate_lines_guarded (d : list (string * value)) :
  rate_map d = true ->
  Forall (fun l => l <> "" /\ head_ok l = true /\ last_ok l = true)
    (map rate_line d).
Proof.
  intros Hd. apply Forall_forall. intros l Hl.
  apply in_map_iff in Hl. destruct Hl as ([k v] & <- & Hin).
  unfold rate_map in Hd. rewrite forallb_forall in Hd.
  specialize (Hd _ Hin). apply andb_true_iff in Hd. destruct Hd as [Hk Hv].
  now apply rate_line_guarded.
Qed.

Lemma format_rates_strips (v : value) (c : ascii) :
  contains c "{}'," = true -> contains c (format_rates v) = false.
Proof.
  intros Hc. destruct (contains c (format_rates v)) eqn:H; [| reflexivity].
  exfalso. rewrite format_rates_tidy in H. unfold strip, tidy in H.
  apply rstrip_contains, lstrip_contains, re_sub_class_contains in H.
  destruct H as [H | [H Hcomma]].
  - destruct c as [[] [] [] [] [] [] [] []]; discriminate.
  - apply re_sub_class_contains in H. destruct H as [H | [_ Hcls]].
    + discriminate H.
    + destruct c as [[] [] [] [] [] [] [] []]; discriminate.
Qed.

(** C4, as stated, fails on the shape of a line: for the map USD 1,
    EUR 0.9235, JPY 151.62 the dialog text splits into "USD: 1",
    " EUR: 0.9235" and " JPY: 151.62", with the colon of the dict syntax kept
    and a space in front of every line but the first, and not into the lines
    "USD 1", "EUR 0.9235" and "JPY 151.62". *)
Lemma rate_lines_keep_colon :
  rate_map Sample.rate_list = true /\
  split_lines (format_rates (PyDict Sample.rate_list)) =
    ["USD: 1"; " EUR: 0.9235"; " JPY: 151.62"] /\
  map spec_line Sample.rate_list = ["USD 1"; "EUR 0.9235"; "JPY 151.62"] /\
  split_lines (format_rates (PyDict Sample.rate_list)) <>
    map spec_line Sample.rate_list.
Proof.
  repeat split. discriminate.
Qed.

(** C4, amended: the text shown has no brace, no single quote and no comma,
    whatever value is formatted; and for a rate map, plain codes bound to
    numbers, it is the entries in the order of the map, each as
    "CODE: rate", joined by a line break followed by one space.  Nothing is
    sorted, and each rate stays with its code. *)
Theorem format_rates_lines (d : list (string * value)) :
  rate_map d = true ->
  format_rates (PyDict d) = String.concat (LF ++ " ") (map rate_line d) /\
  (forall (v : value) (c : ascii),
     contains c "{}'," = true -> contains c (format_rates v) = false).
Proof.
  intros Hd. split; [| exact format_rates_strips].
  rewrite format_rates_tidy, (tidy_dict d Hd).
  destruct (concat_guarded (LF ++ " ") _ (rate_lines_guarded d Hd))
    as (Hh & Hl & _).
  now apply strip_guarded.
Qed.

Lemma format_rates_lines_witness :
  format_rates (PyDict Sample.rate_list) =
    "USD: 1" ++ LF ++ " EUR: 0.9235" ++ LF ++ " JPY: 151.62".
Proof.
  apply (proj1 (format_rates_lines Sample.rate_list eq_refl)).
Defined.

(** * Further properties of the handlers *)

(** ** The rate-table path of the rate lookup *)

Lemma get_exchange_rate_dialog_run (E : env) (w : world) :
  let a := entries w from_currency_entry in
  let url := url_latest E (Some (upper a)) in
  let w' := snd (get_exchange_rate E w) in
  a <> "" -> entries w to_currency_entry = "" ->
  sent w' = (sent w ++ [url])%list /\
  entries w' = entries w /\
  labels w' = labels w /\
  timers w' = timers w /\
  match extract (api E url) [Some "conversion_rates"] with
  | inl rates =>
      fst (get_exchange_rate E w) = Ok tt /\
      dialogs w' =
        {| stext := Some {| content := format_rates rates;
                            disabled := true |};
           grabbed := true |} :: dialogs w
  | inr e =>
      fst (get_exchange_rate E w) = Raise e /\
      dialogs w' = {| stext := None; grabbed := false |} :: dialogs w
  end.
Proof.
  intros a url w' Ha Hb. subst w' url. unfold_handler. fold a.
  rewrite Hb, (truthy_nonempty a Ha). simpl.
  rewrite (truthy_upper a Ha). simpl.
  destruct (api E (url_latest E (Some (upper a)))) as [| st [j |]]; simpl;
    [now repeat split | | now repeat split].
  destruct (getitem j (Some "conversion_rates")); simpl;
    rewrite ?append_nil_r; now repeat split.
Qed.

(** X1: with an ASCII source and no target in the rate form, and a reply
    whose JSON holds the rates, [get_exchange_rate] sends one latest-rates
    request for the upper-cased source and puts one new window on top of the
    others whose text widget holds the formatted table.  The rate form is not
    cleared, no label changes and no timer is set. *)
Theorem rate_table_dialog_opens (E : env) (w : world) (rates : value) :
  is_ascii (entries w from_currency_entry) = true ->
  entries w from_currency_entry <> "" ->
  entries w to_currency_entry = "" ->
  extract (api E (url_latest E (Some (upper (entries w from_currency_entry)))))
    [Some "conversion_rates"] = inl rates ->
  let w' := snd (get_exchange_rate E w) in
  sent w' =
    (sent w ++ [(api_root E ++ "/latest/"
                   ++ upper (entries w from_currency_entry))%string])%list /\
  (exists d, dialogs w' = d :: dialogs w /\
             option_map content (stext d) = Some (format_rates rates)) /\
  entries w' = entries w /\
  labels w' = labels w /\
  timers w' = timers w.
Proof.
  intros _ Ha Hb Hx w'.
  destruct (get_exchange_rate_dialog_run E w Ha Hb) as (Hs & He & Hl & Ht & Hrun).
  rewrite Hx in Hrun. destruct Hrun as [_ Hd].
  split; [exact Hs | split; [| now repeat split]].
  eexists. split; [exact Hd | reflexivity].
Qed.

Lemma rate_table_dialog_opens_witness :
  let w' := snd (get_exchange_rate Sample.online Scenario.source_only) in
  sent w' = ["https://v6.exchangerate-api.com/v6/k3y/latest/USD"] /\
  (exists d, dialogs w' = [d] /\
             option_map content (stext d) = Some (format_rates Sample.rates)) /\
  entries w' = entries Scenario.source_only /\
  labels w' = labels Scenario.source_only /\
  timers w' = [].
Proof.
  apply (rate_table_dialog_opens Sample.online Scenario.source_only Sample.rates).
  - reflexivity.
  - discriminate.
  - reflexivity.
  - reflexivity.
Defined.

(** X2: on the same path, when the request gets no reply, the body is not
    JSON or it has no ['conversion_rates'], the handler raises after the
    window was created and before its text widget is: a new window stays,
    with no text widget in it and without the grab, and nothing tells the
    user why; form, labels and timers are as before. *)
Theorem rate_table_fault_leaves_blank_window (E : env) (w : world) (e : exn) :
  entries w from_currency_entry <> "" ->
  entries w to_currency_entry = "" ->
  extract (api E (url_latest E (Some (upper (entries w from_currency_entry)))))
    [Some "conversion_rates"] = inr e ->
  let w' := snd (get_exchange_rate E w) in
  fst (get_exchange_rate E w) = Raise e /\
  dialogs w' = {| stext := None; grabbed := false |} :: dialogs w /\
  entries w' = entries w /\
  labels w' = labels w /\
  timers w' = timers w.
Proof.
  intros Ha Hb Hx w'.
  destruct (get_exchange_rate_dialog_run E w Ha Hb) as (Hs & He & Hl & Ht & Hrun).
  rewrite Hx in Hrun. destruct Hrun as [Hraise Hd].
  repeat split; assumption.
Qed.

Lemma rate_table_fault_leaves_blank_window_witness :
  let w' := snd (get_exchange_rate Sample.offline Scenario.source_only) in
  fst (get_exchange_rate Sample.offline Scenario.source_only) =
    Raise RequestException /\
  dialogs w' = [{| stext := None; grabbed := false |}] /\
  entries w' = entries Scenario.source_only /\
  labels w' = labels Scenario.source_only /\
  timers w' = [].
Proof.
  apply (rate_table_fault_leaves_blank_window Sample.offline
           Scenario.source_only RequestException).
  - discriminate.
  - reflexivity.
  - reflexivity.
Defined.

(** ** What a successful run leaves behind *)

(** X3: when the pair request yields a result, [convert_currency] empties
    the three fields of the convert form and sets one timer, 10000 ms, that
    will blank the result label. *)
Theorem convert_currency_clears_form (E : env) (w : world) (r : value) :
  extract (api E (url_pair E (upper (entries w source_currency_entry))
                           (upper (entries w target_currency_entry))
                           (entries w amount_entry)))
    [Some "conversion_result"] = inl r ->
  let w' := snd (convert_currency E w) in
  entries w' source_currency_entry = "" /\
  entries w' target_currency_entry = "" /\
  entries w' amount_entry = "" /\
  timers w' = (timers w ++ [(10000%Z, display_result)])%list.
Proof.
  intros Hx w'. destruct (convert_currency_run E w) as (_ & _ & Hrun).
  rewrite Hx in Hrun. destruct Hrun as (_ & _ & Ha & Hb & Hc & Ht).
  repeat split; assumption.
Qed.

Lemma convert_currency_clears_form_witness :
  let w' := snd (convert_currency Sample.online Sample.filled) in
  entries w' source_currency_entry = "" /\
  entries w' target_currency_entry = "" /\
  entries w' amount_entry = "" /\
  timers w' = [(10000%Z, display_result)].
Proof.
  apply (convert_currency_clears_form Sample.online Sample.filled
           (PyFloat "92.35")).
  reflexivity.
Defined.

(** X4: with a source and a target, when the reply holds the rate of the
    upper-cased target, [get_exchange_rate] returns normally, empties both
    fields of the rate form, sets one 10000 ms timer on the rate label and
    opens no window. *)
Theorem get_exchange_rate_clears_form (E : env) (w : world) (r : value) :
  entries w from_currency_entry <> "" ->
  entries w to_currency_entry <> "" ->
  extract (api E (url_latest E (Some (upper (entries w from_currency_entry)))))
    [Some "conversion_rates"; Some (upper (entries w to_currency_entry))] = inl r ->
  let w' := snd (get_exchange_rate E w) in
  fst (get_exchange_rate E w) = Ok tt /\
  entries w' from_currency_entry = "" /\
  entries w' to_currency_entry = "" /\
  timers w' = (timers w ++ [(10000%Z, exchange_rate_label)])%list /\
  dialogs w' = dialogs w.
Proof.
  intros Ha Hb Hx w'.
  destruct (get_exchange_rate_pair E w Ha Hb) as (_ & Hd & Hrun).
  rewrite Hx in Hrun. destruct Hrun as (Hok & _ & Hf & Ht & Htm).
  repeat split; assumption.
Qed.

Lemma get_exchange_rate_clears_form_witness :
  let w' := snd (get_exchange_rate Sample.online Sample.filled) in
  fst (get_exchange_rate Sample.online Sample.filled) = Ok tt /\
  entries w' from_currency_entry = "" /\
  entries w' to_currency_entry = "" /\
  timers w' = [(10000%Z, exchange_rate_label)] /\
  dialogs w' = [].
Proof.
  apply (get_exchange_rate_clears_form Sample.online Sample.filled
           (PyFloat "0.9235")).
  - discriminate.
  - discriminate.
  - reflexivity.
Defined.

(** X5: a refused quota check leaves every entry field as typed, the
    password included, and sets one 3000 ms timer on the quota label. *)
Theorem refused_quota_keeps_credentials (E : env) (w : world) :
  fst (check_admin E w) <> Ok (PyBool true) ->
  let w' := snd (get_api_quota E w) in
  entries w' = entries w /\
  timers w' = (timers w ++ [(3000%Z, quota_label)])%list /\
  dialogs w' = dialogs w.
Proof.
  intros Hfail w'. apply credentials_match_false in Hfail.
  destruct (get_api_quota_denied E w Hfail) as (_ & _ & _ & He & Ht & Hd).
  repeat split; assumption.
Qed.

Lemma refused_quota_keeps_credentials_witness :
  let w' := snd (get_api_quota Sample.online Sample.wrong_password) in
  entries w' = entries Sample.wrong_password /\
  timers w' = [(3000%Z, quota_label)] /\
  dialogs w' = [].
Proof.
  apply (refused_quota_keeps_credentials Sample.online Sample.wrong_password).
  discriminate.
Defined.

(** ** What no command does *)

(** X6: a command sends at most one request, sets at most one timer and
    opens at most one window, each added to what was there: no command
    rewrites the requests sent, cancels a pending timer or closes a window. *)
Theorem commands_only_add (E : env) (c : command) (w : world) :
  let w' := snd (handler E c w) in
  appended (sent w) (sent w') /\
  appended (timers w) (timers w') /\
  (dialogs w' = dialogs w \/ exists d, dialogs w' = d :: dialogs w).
Proof.
  unfold appended. run_command c w;
    repeat split;
    first [left; reflexivity | right; eexists; reflexivity].
Qed.

(** X7: whenever a command changes a label it also sets a timer that will
    blank that same label, and it changes no other label; a command that
    sets no timer leaves all labels as they were. *)
Theorem messages_expire (E : env) (c : command) (w : world) :
  let w' := snd (handler E c w) in
  (labels w' = labels w /\ timers w' = timers w) \/
  (exists l ms,
     timers w' = (timers w ++ [(ms, l)])%list /\
     forall l', l' <> l -> labels w' l' = labels w l').
Proof.
  run_command c w;
    first [ left; split; reflexivity
          | right; eexists; eexists; split;
            [reflexivity | intros [] Hl; simpl; congruence] ].
Qed.

(** X8: a command changes only the fields and the label of its own form:
    every other field and label is as before, whatever the outcome, and only
    the rate lookup can open a window. *)
Theorem forms_do_not_interfere
    (E : env) (c : command) (w : world) (e : entry) (l : label) :
  own_entry c e = false ->
  own_label c l = false ->
  let w' := snd (handler E c w) in
  entries w' e = entries w e /\
  labels w' l = labels w l /\
  (c <> GetRate -> dialogs w' = dialogs w).
Proof.
  intros He Hl.
  destruct c, e; try discriminate He; destruct l; try discriminate Hl;
    unfold handler; unfold_handler; try rate_form_cases w; run_cases;
    repeat split; congruence.
Qed.

Lemma forms_do_not_interfere_witness :
  let w' := snd (handler Sample.online Convert Sample.filled) in
  entries w' admin_password_entry = "s3cret" /\
  labels w' quota_label = "Quota:" /\
  (Convert <> GetRate -> dialogs w' = []).
Proof.
  apply (forms_do_not_interfere Sample.online Convert Sample.filled
           admin_password_entry quota_label); reflexivity.
Defined.

(** X9: the status code of a reply plays no part in any command: two
    configurations with the same three globals whose replies differ at most
    in their status codes give the same outcome and the same window. *)
Theorem status_code_ignored (E E' : env) (c : command) (w : world) :
  API_KEY E = API_KEY E' ->
  ADMIN E = ADMIN E' ->
  PASSWORD E = PASSWORD E' ->
  (forall url, forget_status (api E url) = forget_status (api E' url)) ->
  handler E c w = handler E' c w.
Proof.
  destruct E as [key adm pwd net], E' as [key' adm' pwd' net']. simpl.
  intros <- <- <- Hnet.
  destruct c; unfold handler; unfold_handler; unfold url_pair, url_latest,
    url_quota, api_root; simpl; try rate_form_cases w;
    repeat match goal with
      | |- context [match net ?u with _ => _ end] =>
          let H := fresh "H" in
          pose proof (Hnet u) as H;
          destruct (net u) as [| ? [? |]], (net' u) as [| ? [? |]];
          simpl in H; try discriminate H; try (inversion H; subst); simpl
      end;
    run_cases; reflexivity.
Qed.

Lemma status_code_ignored_witness :
  handler Sample.online Convert Sample.filled =
  handler Sample.odd_status Convert Sample.filled.
Proof.
  apply (status_code_ignored Sample.online Sample.odd_status Convert
           Sample.filled); reflexivity.
Defined.

(** ** Pressing a button twice *)

(** X10: after a conversion that succeeded the form is empty, so a second
    press of Convert sends the pair request with three empty parts,
    ".../pair///". *)
Theorem second_convert_sends_empty_request (E : env) (w : world) (r : value) :
  let url := url_pair E (upper (entries w source_currency_entry))
                        (upper (entries w target_currency_entry))
                        (entries w amount_entry) in
  extract (api E url) [Some "conversion_result"] = inl r ->
  sent (snd (convert_currency E (snd (convert_currency E w)))) =
    (sent w ++ [url; (api_root E ++ "/pair///")%string])%list.
Proof.
  intros url Hx. subst url.
  destruct (convert_currency_run E w) as (Hs & _ & Hrun).
  rewrite Hx in Hrun. destruct Hrun as (_ & _ & Ha & Hb & Hc & _).
  destruct (convert_currency_run E (snd (convert_currency E w))) as (Hs2 & _).
  rewrite Hs2, Ha, Hb, Hc, Hs, <- app_assoc. reflexivity.
Qed.

Lemma second_convert_sends_empty_request_witness :
  sent (snd (convert_currency Sample.online
               (snd (convert_currency Sample.online Sample.filled)))) =
    ["https://v6.exchangerate-api.com/v6/k3y/pair/USD/EUR/100";
     "https://v6.exchangerate-api.com/v6/k3y/pair///"].
Proof.
  apply (second_convert_sends_empty_request Sample.online Sample.filled
           (PyFloat "92.35")).
  reflexivity.
Defined.

(** X11: after a rate lookup with source and target that succeeded the rate
    form is empty, so a second press of Get exchange rate sends nothing and
    replaces the rate shown by "Please enter the source currency!". *)
Theorem second_rate_lookup_shows_prompt (E : env) (w : world) (r : value) :
  entries w from_currency_entry <> "" ->
  entries w to_currency_entry <> "" ->
  extract (api E (url_latest E (Some (upper (entries w from_currency_entry)))))
    [Some "conversion_rates"; Some (upper (entries w to_currency_entry))] = inl r ->
  let w1 := snd (get_exchange_rate E w) in
  let w2 := snd (get_exchange_rate E w1) in
  fst (get_exchange_rate E w1) = Ok tt /\
  sent w2 = sent w1 /\
  labels w2 exchange_rate_label = "Please enter the source currency!".
Proof.
  intros Ha Hb Hx w1 w2.
  destruct (get_exchange_rate_pair E w Ha Hb) as (_ & _ & Hrun).
  rewrite Hx in Hrun. destruct Hrun as (_ & _ & Hf & _).
  destruct (get_exchange_rate_no_source E w1 Hf) as (Hok & Hs & Hl & _).
  repeat split; assumption.
Qed.

Lemma second_rate_lookup_shows_prompt_witness :
  let w1 := snd (get_exchange_rate Sample.online Sample.filled) in
  let w2 := snd (get_exchange_rate Sample.online w1) in
  fst (get_exchange_rate Sample.online w1) = Ok tt /\
  sent w2 = sent w1 /\
  labels w2 exchange_rate_label = "Please enter the source currency!".
Proof.
  apply (second_rate_lookup_shows_prompt Sample.online Sample.filled
           (PyFloat "0.9235")).
  - discriminate.
  - discriminate.
  - reflexivity.
Defined.

(** X12: after a quota check that succeeded with a username or a password
    that is not empty, both credential fields are empty, so a second press
    of Check API Quota is refused: it sends nothing and replaces the quota
    shown by "Invalid admin credentials!". *)
Theorem second_quota_check_is_refused (E : env) (w : world) (r : value) :
  fst (check_admin E w) = Ok (PyBool true) ->
  entries w admin_entry <> "" \/ entries w admin_password_entry <> "" ->
  extract (api E (url_quota E)) [Some "requests_remaining"] = inl r ->
  let w1 := snd (get_api_quota E w) in
  let w2 := snd (get_api_quota E w1) in
  fst (get_api_quota E w1) = Ok tt /\
  sent w2 = sent w1 /\
  labels w2 quota_label = "Invalid admin credentials!".
Proof.
  intros Hcheck Htyped Hx w1 w2.
  pose proof (proj1 (check_admin_true E w) Hcheck) as [Hu Hp].
  apply credentials_match_true in Hcheck.
  destruct (get_api_quota_granted E w Hcheck) as (_ & Hrun).
  rewrite Hx in Hrun. destruct Hrun as (_ & _ & Hu1 & Hp1 & _).
  assert (Hfail : credentials_match E w1 = false).
  { apply credentials_match_false. intros Hagain.
    apply check_admin_true in Hagain. destruct Hagain as [Hu2 Hp2].
    fold w1 in Hu1, Hp1. rewrite Hu1 in Hu2. rewrite Hp1 in Hp2.
    destruct Htyped as [Hne | Hne]; apply Hne; congruence. }
  destruct (get_api_quota_denied E w1 Hfail) as (Hok & Hs & Hl & _).
  repeat split; assumption.
Qed.

Lemma second_quota_check_is_refused_witness :
  let w1 := snd (get_api_quota Sample.online Sample.filled) in
  let w2 := snd (get_api_quota Sample.online w1) in
  fst (get_api_quota Sample.online w1) = Ok tt /\
  sent w2 = sent w1 /\
  labels w2 quota_label = "Invalid admin credentials!".
Proof.
  apply (second_quota_check_is_refused Sample.online Sample.filled (PyInt 1200)).
  - reflexivity.
  - left. discriminate.
  - reflexivity.
Defined.

(** ** Which exception *)

(** X13: what [convert_currency] raises: [RequestException] when the request
    gets no reply, [JSONDecodeError] when the body is not JSON, [KeyError]
    naming ['conversion_result'] when the body is an object without that
    key, and [TypeError] when the body is JSON but not an object. *)
Theorem convert_currency_fault_kinds (E : env) (w : world) :
  let url := url_pair E (upper (entries w source_currency_entry))
                        (upper (entries w target_currency_entry))
                        (entries w amount_entry) in
  (api E url = NoReply ->
     fst (convert_currency E w) = Raise RequestException) /\
  (forall st, api E url = Reply st None ->
     fst (convert_currency E w) = Raise JSONDecodeError) /\
  (forall st d, api E url = Reply st (Some (PyDict d)) ->
     dict_get d "conversion_result" = None ->
     fst (convert_currency E w) = Raise (KeyError (Some "conversion_result"))) /\
  (forall st j, api E url = Reply st (Some j) ->
     (forall d, j <> PyDict d) ->
     fst (convert_currency E w) = Raise TypeError).
Proof.
  intros url. destruct (convert_currency_run E w) as (_ & _ & Hrun).
  fold url in Hrun. split; [| split; [| split]].
  - intros Hr. rewrite Hr in Hrun. apply Hrun.
  - intros st Hr. rewrite Hr in Hrun. apply Hrun.
  - intros st d Hr Hd. rewrite Hr in Hrun. simpl in Hrun.
    rewrite Hd in Hrun. apply Hrun.
  - intros st j Hr Hj. rewrite Hr in Hrun.
    destruct j; try apply Hrun. now elim (Hj d).
Qed.

Lemma convert_currency_fault_kinds_witness :
  fst (convert_currency Sample.rejecting Sample.filled) =
    Raise (KeyError (Some "conversion_result")) /\
  fst (convert_currency Sample.offline Sample.filled) = Raise RequestException.
Proof.
  split.
  - apply (proj1 (proj2 (proj2
             (convert_currency_fault_kinds Sample.rejecting Sample.filled)))
             404%Z [("result", PyStr "error");
                    ("error-type", PyStr "unsupported-code")]);
      reflexivity.
  - apply (proj1 (convert_currency_fault_kinds Sample.offline Sample.filled)).
    reflexivity.
Defined.

(** X14: for ASCII codes, a target code that the returned rates do not
    list makes [get_exchange_rate] raise [KeyError] naming the upper-cased
    code, after the request went out; the form and the labels are as
    before. *)
Theorem unknown_target_raises_key_error
    (E : env) (w : world) (st : Z) (j : value) (d : list (string * value)) :
  let a := entries w from_currency_entry in
  let b := entries w to_currency_entry in
  is_ascii a = true -> is_ascii b = true ->
  a <> "" -> b <> "" ->
  api E (url_latest E (Some (upper a))) = Reply st (Some j) ->
  getitem j (Some "conversion_rates") = inl (PyDict d) ->
  dict_get d (upper b) = None ->
  let w' := snd (get_exchange_rate E w) in
  fst (get_exchange_rate E w) = Raise (KeyError (Some (upper b))) /\
  sent w' = (sent w ++ [url_latest E (Some (upper a))])%list /\
  entries w' = entries w /\
  labels w' = labels w.
Proof.
  intros a b _ _ Ha Hb Hr Hj Hd w'.
  destruct (get_exchange_rate_pair E w Ha Hb) as (Hs & _ & Hrun).
  fold a b in Hrun, Hs. rewrite Hr in Hrun. simpl in Hrun.
  rewrite Hj in Hrun. simpl in Hrun. rewrite Hd in Hrun.
  destruct Hrun as (Hraise & Hl & He & _).
  repeat split; assumption.
Qed.

Lemma unknown_target_raises_key_error_witness :
  let w' := snd (get_exchange_rate Sample.online Scenario.unknown_target) in
  fst (get_exchange_rate Sample.online Scenario.unknown_target) =
    Raise (KeyError (Some "XXX")) /\
  sent w' = ["https://v6.exchangerate-api.com/v6/k3y/latest/USD"] /\
  entries w' = entries Scenario.unknown_target /\
  labels w' = labels Scenario.unknown_target.
Proof.
  apply (unknown_target_raises_key_error Sample.online Scenario.unknown_target
           200%Z Sample.answer Sample.rate_list).
  - reflexivity.
  - reflexivity.
  - discriminate.
  - discriminate.
  - reflexivity.
  - reflexivity.
  - reflexivity.
Defined.

(** ** A missing API key *)

(** X15: when the API key is missing from the environment nothing stops the
    commands: every request they send goes to ".../v6/None/...". *)
Theorem missing_api_key_goes_into_url (E : env) (w : world) :
  API_KEY E = None ->
  let root := "https://v6.exchangerate-api.com/v6/None" in
  sent (snd (convert_currency E w)) =
    (sent w ++ [(root ++ "/pair/" ++ upper (entries w source_currency_entry)
                      ++ "/" ++ upper (entries w target_currency_entry)
                      ++ "/" ++ entries w amount_entry)%string])%list /\
  (entries w from_currency_entry <> "" ->
   sent (snd (get_exchange_rate E w)) =
     (sent w ++ [(root ++ "/latest/"
                      ++ upper (entries w from_currency_entry))%string])%list) /\
  (fst (check_admin E w) = Ok (PyBool true) ->
   sent (snd (get_api_quota E w)) = (sent w ++ [(root ++ "/quota")%string])%list).
Proof.
  intros Hkey root. subst root. split; [| split].
  - destruct (convert_currency_run E w) as (Hs & _). rewrite Hs.
    unfold url_pair, api_root. now rewrite Hkey.
  - intros Ha.
    assert (Hs : sent (snd (get_exchange_rate E w)) =
                 (sent w ++ [url_latest E (Some (upper (entries w from_currency_entry)))])%list).
    { destruct (String.string_dec (entries w to_currency_entry) "") as [Hb | Hb].
      - apply (get_exchange_rate_table E w Ha Hb).
      - apply (get_exchange_rate_pair E w Ha Hb). }
    rewrite Hs. unfold url_latest, api_root. now rewrite Hkey.
  - intros Hcheck. apply credentials_match_true in Hcheck.
    destruct (get_api_quota_granted E w Hcheck) as (Hs & _). rewrite Hs.
    unfold url_quota, api_root. now rewrite Hkey.
Qed.

Lemma missing_api_key_goes_into_url_witness :
  sent (snd (convert_currency Scenario.keyless Sample.filled)) =
    ["https://v6.exchangerate-api.com/v6/None/pair/USD/EUR/100"] /\
  sent (snd (get_exchange_rate Scenario.keyless Sample.filled)) =
    ["https://v6.exchangerate-api.com/v6/None/latest/USD"] /\
  sent (snd (get_api_quota Scenario.keyless Sample.filled)) =
    ["https://v6.exchangerate-api.com/v6/None/quota"].
Proof.
  destruct (missing_api_key_goes_into_url Scenario.keyless Sample.filled eq_refl)
    as (Hc & Hr & Hq).
  split; [exact Hc | split].
  - apply Hr. discriminate.
  - apply Hq. reflexivity.
Defined.

(** ** The lines of the rate table *)

Lemma plain_char_not_newline (c : ascii) :
  plain_char c = true -> Ascii.eqb c (ascii_of_nat 10) = false.
Proof.
  destruct c as [[] [] [] [] [] [] [] []]; intros H;
    try discriminate H; reflexivity.
Qed.

Lemma one_line_app (s t : string) :
  one_line (s ++ t) = one_line s && one_line t.
Proof.
  induction s as [| c s IH]; simpl; [reflexivity |].
  now rewrite IH, andb_assoc.
Qed.

Lemma plain_one_line (s : string) :
  all_chars plain_char s = true -> one_line s = true.
Proof.
  induction s as [| c s IH]; [reflexivity |].
  simpl. intros H. apply andb_true_iff in H. destruct H as [Hc Hs].
  now rewrite (plain_char_not_newline c Hc), (IH Hs).
Qed.

Lemma split_lines_one_line (s : string) :
  one_line s = true -> split_lines s = [s].
Proof.
  induction s as [| c s IH]; [reflexivity |].
  simpl. intros H. apply andb_true_iff in H. destruct H as [Hc Hs].
  apply negb_true_iff in Hc. now rewrite Hc, (IH Hs).
Qed.

Lemma split_lines_break (s t : string) :
  one_line s = true ->
  split_lines (s ++ LF ++ t) = s :: split_lines t.
Proof.
  induction s as [| c s IH]; [reflexivity |].
  simpl. intros H. apply andb_true_iff in H. destruct H as [Hc Hs].
  apply negb_true_iff in Hc. rewrite Hc.
  change (s ++ String (ascii_of_nat 10) t) with (s ++ LF ++ t).
  now rewrite (IH Hs).
Qed.

Lemma split_lines_concat (x : string) (rest : list string) :
  one_line x = true ->
  Forall (fun l => one_line l = true) rest ->
  split_lines (String.concat (LF ++ " ") (x :: rest)) =
  x :: map (fun l => " " ++ l) rest.
Proof.
  intros Hx Hrest. revert x Hx.
  induction Hrest as [| y r Hy Hr IH]; intros x Hx.
  - now apply split_lines_one_line.
  - change (String.concat (LF ++ " ") (x :: y :: r))
      with (x ++ LF ++ (" " ++ String.concat (LF ++ " ") (y :: r))).
    assert (Hy' : " " ++ String.concat (LF ++ " ") (y :: r) =
                  String.concat (LF ++ " ") ((" " ++ y) :: r))
      by (destruct r; reflexivity).
    rewrite Hy', (split_lines_break _ _ Hx), (IH (" " ++ y) Hy). reflexivity.
Qed.

Lemma rate_line_one_line (k : string) (v : value) :
  all_chars plain_char k = true -> is_rate v = true ->
  one_line (rate_line (k, v)) = true.
Proof.
  intros Hk Hv. destruct (rate_text v Hv) as (Hstr & _ & Hplain).
  unfold rate_line. simpl fst. simpl snd.
  rewrite Hstr, !one_line_app, (plain_one_line k Hk), (plain_one_line _ Hplain).
  reflexivity.
Qed.

Lemma format_rates_rate_map (d : list (string * value)) :
  rate_map d = true ->
  format_rates (PyDict d) = String.concat (LF ++ " ") (map rate_line d).
Proof.
  intros Hd. rewrite format_rates_tidy, (tidy_dict d Hd).
  destruct (concat_guarded (LF ++ " ") _ (rate_lines_guarded d Hd))
    as (Hh & Hl & _).
  now apply strip_guarded.
Qed.

(** X16: split at its line breaks, the text shown for a rate map has one
    line per entry, in the order of the map: "CODE: rate" for the first
    entry and " CODE: rate", with one space in front, for each of the
    others.  For an empty map it is the single empty line. *)
Theorem rate_table_one_line_per_entry (d : list (string * value)) :
  rate_map d = true ->
  split_lines (format_rates (PyDict d)) =
    match map rate_line d with
    | [] => [""]
    | first :: others => first :: map (fun l => " " ++ l) others
    end.
Proof.
  intros Hd. rewrite (format_rates_rate_map d Hd).
  assert (Hlines : Forall (fun l => one_line l = true) (map rate_line d)).
  { apply Forall_forall. intros l Hl.
    apply in_map_iff in Hl. destruct Hl as ([k v] & <- & Hin).
    unfold rate_map in Hd. rewrite forallb_forall in Hd.
    specialize (Hd _ Hin). apply andb_true_iff in Hd. destruct Hd as [Hk Hv].
    now apply rate_line_one_line. }
  destruct (map rate_line d) as [| x rest]; [reflexivity |].
  inversion Hlines; subst. now apply split_lines_concat.
Qed.

Lemma rate_table_one_line_per_entry_witness :
  split_lines (format_rates (PyDict Sample.rate_list)) =
    ["USD: 1"; " EUR: 0.9235"; " JPY: 151.62"].
Proof.
  apply (rate_table_one_line_per_entry Sample.rate_list eq_refl).
Defined.

(** ** The day/night toggle *)

(** X17: starting from the window as built, after any number of clicks on
    the day/night toggle the variable is 0 and the theme "simplex" if the
    number of clicks is even, and the variable is 1 and the theme
    "superhero" if it is odd. *)
Theorem theme_follows_clicks (n : nat) :
  let k := Nat.iter n click_toggle startup_look in
  var k = (if Nat.even n then 0 else 1)%Z /\
  theme k = (if Nat.even n then "simplex" else "superhero").
Proof.
  induction n as [| n IH]; [split; reflexivity |].
  simpl Nat.iter. destruct IH as [Hv Ht].
  set (k := Nat.iter n click_toggle startup_look) in *.
  rewrite Nat.even_succ, <- Nat.negb_even.
  unfold click_toggle, change_theme. simpl. rewrite Hv.
  destruct (Nat.even n); simpl; split; reflexivity.
Qed.
